(** * Half-board check-in tracker: the upload pipeline and the booking store

    A shallow embedding of [app.py]: the column resolver
    ([_normalize_columns]), the checkout formatter ([_format_checkout]), the
    record builder and ingestion pipeline ([_parse_file]), and the two store
    transitions ([upload], [toggle]).

    Conventions.
    - Python integers are [Z] (unbounded, no wrap-around).
    - Python strings are [string]; the model of [str.lower], [str.strip]
      and [int] of a text is the one of ASCII text (a character above 127
      is left alone, is not white space and is no digit). Statements that
      depend on it are made for [ascii_text].
    - The headers of a table are text.
    - Exceptions are explicit: a fallible computation returns [res A], and
      code that also touches the module globals runs in the monad [M].
    - What the program takes from pandas and from Python's printing of a
      float, of a timestamp and of a quoted text is a parameter, gathered
      in the class [Runtime]. *)

From Stdlib Require Import ZArith Lia Ascii String DecimalString DecimalPos DecimalZ.
From stdpp Require Import base option list gmap strings sorting.

Local Open Scope string_scope.
Local Open Scope Z_scope.

(** ** Python strings *)

(** [str.isspace] on ASCII: TAB, LF, VT, FF, CR, the four separators
    FS, GS, RS, US, and the space. *)
Definition is_space (c : ascii) : bool :=
  let n := N_of_ascii c in
  ((9 <=? n) && (n <=? 13) || (28 <=? n) && (n <=? 32))%N.

Definition is_upper (c : ascii) : bool :=
  let n := N_of_ascii c in ((65 <=? n) && (n <=? 90))%N.

Definition lower_char (c : ascii) : ascii :=
  if is_upper c then ascii_of_N (N_of_ascii c + 32) else c.

(** [s.lower()] *)
Fixpoint py_lower (s : string) : string :=
  match s with
  | EmptyString => EmptyString
  | String c s' => String (lower_char c) (py_lower s')
  end.

(** [s.lstrip()], [s.rstrip()], [s.strip()] *)
Fixpoint py_lstrip (s : string) : string :=
  match s with
  | EmptyString => EmptyString
  | String c s' => if is_space c then py_lstrip s' else s
  end.

Fixpoint py_rstrip (s : string) : string :=
  match s with
  | EmptyString => EmptyString
  | String c s' =>
      match py_rstrip s' with
      | EmptyString => if is_space c then EmptyString else String c EmptyString
      | r => String c r
      end
  end.

Definition py_strip (s : string) : string := py_rstrip (py_lstrip s).

(** [sep.join(l)] *)
Fixpoint py_join (sep : string) (l : list string) : string :=
  match l with
  | [] => ""
  | [x] => x
  | x :: l' => x +:+ sep +:+ py_join sep l'
  end.

(** [str(n)] for an [int] *)
Definition str_int (n : Z) : string := NilZero.string_of_int (Z.to_int n).

(** A decimal digit, and a number printed on two digits with a leading
    zero ([%d] and [%m] of [strftime]). *)
Definition digit (n : Z) : ascii := ascii_of_N (48 + Z.to_N (n mod 10)).

Definition pad2 (n : Z) : string :=
  String (digit (n / 10)) (String (digit n) EmptyString).

(** Text made of ASCII characters only. On such text the models of
    [lower], [strip] and [int] of this file are those of Python; beyond it
    Python also knows the letters, the white space and the digits of
    Unicode. *)
Definition ascii_text (s : string) : Prop :=
  Forall (fun c => (N_of_ascii c < 128)%N) (list_ascii_of_string s).

#[global] Instance ascii_text_dec s : Decision (ascii_text s).
Proof. unfold ascii_text. apply _. Defined.

(** [int(s)] for a [str], base 10: surrounding white space is dropped, one
    sign is allowed, then digits, with single underscores between digits. *)
Definition digit_val (c : ascii) : option Z :=
  let n := N_of_ascii c in
  if ((48 <=? n) && (n <=? 57))%N then Some (Z.of_N n - 48) else None.

(** [after_digit] tells whether the previous character was a digit: an
    underscore is legal only between two digits. *)
Fixpoint parse_digits (acc : Z) (after_digit : bool) (s : string) : option Z :=
  match s with
  | EmptyString => if after_digit then Some acc else None
  | String c s' =>
      match digit_val c with
      | Some d => parse_digits (10 * acc + d) true s'
      | None =>
          if (Ascii.eqb c "_" && after_digit)%bool
          then match s' with
               | EmptyString => None
               | String c' _ =>
                   match digit_val c' with
                   | Some _ => parse_digits acc false s'
                   | None => None
                   end
               end
          else None
      end
  end.

Definition int_of_str (s : string) : option Z :=
  match py_strip s with
  | String "-" s' => Z.opp <$> parse_digits 0 false s'
  | String "+" s' => parse_digits 0 false s'
  | s' => parse_digits 0 false s'
  end.

(** ** Python's [datetime]: the proleptic Gregorian calendar

    [datetime.toordinal] and [datetime.fromordinal] as the standard library
    computes them: 0001-01-01 is day 1. *)

Record date := mk_date { year : Z; month : Z; day : Z }.

Definition _is_leap (y : Z) : bool :=
  (y mod 4 =? 0) && (negb (y mod 100 =? 0) || (y mod 400 =? 0)).

Definition _days_before_year (y : Z) : Z :=
  let y := y - 1 in y * 365 + y / 4 - y / 100 + y / 400.

Definition _DAYS_IN_MONTH (m : Z) : Z :=
  if m =? 2 then 28
  else if (m =? 4) || (m =? 6) || (m =? 9) || (m =? 11) then 30
  else 31.

Definition _DAYS_BEFORE_MONTH (m : Z) : Z :=
  match m with
  | 1 => 0 | 2 => 31 | 3 => 59 | 4 => 90 | 5 => 120 | 6 => 151
  | 7 => 181 | 8 => 212 | 9 => 243 | 10 => 273 | 11 => 304 | 12 => 334
  | _ => -1
  end.

Definition _days_in_month (y m : Z) : Z :=
  if (m =? 2) && _is_leap y then 29 else _DAYS_IN_MONTH m.

Definition _days_before_month (y m : Z) : Z :=
  _DAYS_BEFORE_MONTH m + (if (2 <? m) && _is_leap y then 1 else 0).

Definition _ymd2ord (y m d : Z) : Z :=
  _days_before_year y + _days_before_month y m + d.

Definition toordinal (d : date) : Z := _ymd2ord (year d) (month d) (day d).

Definition _DI400Y : Z := 146097.
Definition _DI100Y : Z := 36524.
Definition _DI4Y : Z := 1461.

Definition _ord2ymd (n : Z) : date :=
  let n := n - 1 in
  let n400 := n / _DI400Y in
  let n := n mod _DI400Y in
  let y := n400 * 400 + 1 in
  let n100 := n / _DI100Y in
  let n := n mod _DI100Y in
  let n4 := n / _DI4Y in
  let n := n mod _DI4Y in
  let n1 := n / 365 in
  let n := n mod 365 in
  let y := y + n100 * 100 + n4 * 4 + n1 in
  if (n1 =? 4) || (n100 =? 4) then mk_date (y - 1) 12 31
  else
    let leapyear := (n1 =? 3) && (negb (n4 =? 24) || (n100 =? 3)) in
    let m := Z.shiftr (n + 50) 5 in
    let preceding :=
      _DAYS_BEFORE_MONTH m + (if (2 <? m) && leapyear then 1 else 0) in
    if n <? preceding
    then
      let m := m - 1 in
      let preceding :=
        preceding
        - (_DAYS_IN_MONTH m + (if (m =? 2) && leapyear then 1 else 0)) in
      mk_date y m (n - preceding + 1)
    else mk_date y m (n - preceding + 1).

(** [datetime.max.toordinal()], the ordinal of 9999-12-31. *)
Definition _MAXORDINAL : Z := 3652059.

(** [value.strftime("%d/%m/%Y")]: the day and the month on two digits, and
    the year as the C library prints it, without leading zeros (a year
    below 1000 gives fewer than four digits). *)
Definition strftime_dmy (d : date) : string :=
  pad2 (day d) +:+ "/" +:+ pad2 (month d) +:+ "/" +:+ str_int (year d).

(** ** The calendar of the specification

    The day after and the day before a date, by the rules of the Gregorian
    calendar, and the date that lies [n] days after another one. *)

Definition is_leap_year (y : Z) : bool :=
  if y mod 400 =? 0 then true
  else if y mod 100 =? 0 then false
  else y mod 4 =? 0.

Definition month_length (y m : Z) : Z :=
  match m with
  | 2 => if is_leap_year y then 29 else 28
  | 4 | 6 | 9 | 11 => 30
  | _ => 31
  end.

Definition valid_date (d : date) : Prop :=
  1 <= month d <= 12 /\ 1 <= day d <= month_length (year d) (month d).

Definition next_day (d : date) : date :=
  if day d <? month_length (year d) (month d)
  then mk_date (year d) (month d) (day d + 1)
  else if month d <? 12 then mk_date (year d) (month d + 1) 1
  else mk_date (year d + 1) 1 1.

Definition prev_day (d : date) : date :=
  if 1 <? day d then mk_date (year d) (month d) (day d - 1)
  else if 1 <? month d
  then mk_date (year d) (month d - 1) (month_length (year d) (month d - 1))
  else mk_date (year d - 1) 12 31.

(** The date [n] days after [d] ([-n] days before it when [n] is negative). *)
Definition days_after (d : date) (n : Z) : date :=
  if 0 <=? n then Z.iter n next_day d else Z.iter (- n) prev_day d.

Definition EPOCH : date := mk_date 1899 12 30.

(** ** Python values and exceptions *)

Inductive exn :=
| ValueError (msg : string)
| TypeError
| OverflowError
| KeyError.

Inductive res (A : Type) :=
| Ok (a : A)
| Raise (e : exn).
Arguments Ok {A} a.
Arguments Raise {A} e.

#[global] Instance res_ret : MRet res := @Ok.
#[global] Instance res_bind : MBind res := fun A B f m =>
  match m with
  | Ok a => f a
  | Raise e => Raise e
  end.
#[global] Instance res_fmap : FMap res := fun A B f m =>
  match m with
  | Ok a => Ok (f a)
  | Raise e => Raise e
  end.

(** [try: body / except Exception: handler] *)
Definition try_except {A} (body : res A) (handler : exn -> res A) : res A :=
  match body with
  | Ok a => Ok a
  | Raise e => handler e
  end.

(** The values pandas reports as missing: [None], the float NaN, [NaT]. *)
Inductive missing := PyNone | NaN | NaT.

(** A float other than NaN: [m * 2^e], or an infinity. *)
Inductive pyfloat :=
| Finite (m e : Z)
| Infinity (negative : bool).

(** A spreadsheet cell as a row of the data frame holds it. The rows of a
    frame whose columns are of several types hold Python objects: [Int] is
    a Python [int], [Bool] a Python [bool], [Float] a [float] (numpy's
    [float64] is one). The rows of a frame whose columns are all integers
    hold numpy integers, [NpInt], which are no instances of [int]. *)
Inductive cell :=
| Missing (k : missing)
| DateTime (d : date) (time_of_day : Z)
| Int (n : Z)
| NpInt (n : Z)
| Bool (b : bool)
| Float (x : pyfloat)
| Text (s : string).

Record DataFrame := mk_df {
  columns : list string;
  rows : list (list cell)
}.

(** The library functions the program calls and this development does not
    define: [str] of a float and of a timestamp, [repr] of a text (the
    quoted form that the message of [int] shows), and [pd.read_excel] on
    the uploaded bytes ([None] when it raises). *)
Class Runtime := {
  str_float : pyfloat -> string;
  str_datetime : date -> Z -> string;
  repr_str : string -> string;
  read_excel : list Byte.byte -> option DataFrame
}.

(** [pd.isna(value)] *)
Definition pd_isna (value : cell) : bool :=
  match value with
  | Missing _ => true
  | _ => false
  end.

(** [str(value)] *)
Definition py_str `{Runtime} (value : cell) : string :=
  match value with
  | Missing PyNone => "None"
  | Missing NaN => "nan"
  | Missing NaT => "NaT"
  | DateTime d t => str_datetime d t
  | Int n | NpInt n => str_int n
  | Bool true => "True"
  | Bool false => "False"
  | Float x => str_float x
  | Text s => s
  end.

(** [int(x)] for a float: the value truncated toward zero. *)
Definition float_trunc (x : pyfloat) : res Z :=
  match x with
  | Finite m e => Ok (if 0 <=? e then m * 2 ^ e else Z.quot m (2 ^ (- e)))
  | Infinity _ => Raise OverflowError
  end.

(** [int(value)] *)
Definition py_int `{Runtime} (value : cell) : res Z :=
  match value with
  | Int n | NpInt n => Ok n
  | Bool b => Ok (if b then 1 else 0)
  | Float x => float_trunc x
  | Text s =>
      match int_of_str s with
      | Some n => Ok n
      | None =>
          Raise (ValueError ("invalid literal for int() with base 10: "
                             +:+ repr_str s))
      end
  | Missing NaN => Raise (ValueError "cannot convert float NaN to integer")
  | Missing _ | DateTime _ _ => Raise TypeError
  end.

(** [datetime.fromordinal(n)]: the argument must fit a C int, and the
    date must lie between 0001-01-01 and 9999-12-31. *)
Definition fromordinal (n : Z) : res date :=
  if (n <? - 2 ^ 31) || (2 ^ 31 - 1 <? n) then Raise OverflowError
  else if n <? 1 then Raise (ValueError "ordinal must be >= 1")
  else if _MAXORDINAL <? n then Raise (ValueError "year is out of range")
  else Ok (_ord2ymd n).

(** ** The program *)

(** A value of the [personas] field: an [int], or the [str] the code
    stores for a missing cell. *)
Inductive intstr :=
| IntVal (n : Z)
| StrVal (s : string).

(** A booking record: the [dict] built for one row. *)
Record record := mk_record {
  id : Z;
  habitacion : string;
  personas : intstr;
  salida : string;
  media_pension : string;
  estado : string
}.

(** The module globals: [_records], and the next value of
    [_record_id_counter = itertools.count(1)]. *)
Record store := mk_store {
  _records : list record;
  _record_id_counter : Z
}.

Definition initial_store : store := mk_store [] 1.

(** Computations on the globals that may raise. *)
Definition M (A : Type) : Type := store -> res A * store.

#[global] Instance M_ret : MRet M := fun A a st => (Ok a, st).
#[global] Instance M_bind : MBind M := fun A B f m st =>
  match m st with
  | (Ok a, st') => f a st'
  | (Raise e, st') => (Raise e, st')
  end.

Definition lift {A} (r : res A) : M A := fun st => (r, st).

(** [next(_record_id_counter)] *)
Definition next_record_id : M Z := fun st =>
  (Ok (_record_id_counter st),
   mk_store (_records st) (_record_id_counter st + 1)).

Definition REQUIRED_COLUMNS : list (string * string) :=
  [ ("room number", "habitacion");
    ("number of persons", "personas");
    ("day of check out", "salida");
    ("half-board included?", "media_pension") ].

(** [d[k]] for the ordered dict [REQUIRED_COLUMNS] and for a [dict]. *)
Fixpoint assoc_get (d : list (string * string)) (k : string) : res string :=
  match d with
  | [] => Raise KeyError
  | (k', v) :: d' => if String.eqb k' k then Ok v else assoc_get d' k
  end.

Definition dict_get (d : gmap string string) (k : string) : res string :=
  match d !! k with
  | Some v => Ok v
  | None => Raise KeyError
  end.

(** [{f(x): g(x) for x in l}]: later entries replace earlier ones. *)
Definition dict_of (l : list (string * string)) : gmap string string :=
  foldl (fun d kv => <[kv.1 := kv.2]> d) ∅ l.

(** [df.rename(columns=rename_map)] *)
Definition df_rename (df : DataFrame) (rename_map : gmap string string) : DataFrame :=
  mk_df (map (fun col => default col (rename_map !! col)) (columns df)) (rows df).

Definition _normalize_columns (df : DataFrame) : res DataFrame :=
  let normalized :=
    dict_of (map (fun col => (py_strip (py_lower col), col)) (columns df)) in
  let missing :=
    filter (fun col => normalized !! col = None) (map fst REQUIRED_COLUMNS) in
  if negb (bool_decide (missing = []))
  then
    names ← mapM (assoc_get REQUIRED_COLUMNS) missing;
    Raise (ValueError ("Faltan las siguientes columnas en el archivo: "
                       +:+ py_join ", " names))
  else
    renames ← mapM (fun key => col ← dict_get normalized key; mret (col, key))
                   (map fst REQUIRED_COLUMNS);
    mret (df_rename df (dict_of renames)).

(** [df[keys]]: the frame reduced to the columns named [keys], in that
    order. A column name is looked up from the left; pandas makes the names
    it reads from a file distinct. *)
Fixpoint row_get (cols : list string) (row : list cell) (key : string) : res cell :=
  match cols, row with
  | col :: cols', value :: row' =>
      if String.eqb col key then Ok value else row_get cols' row' key
  | _, _ => Raise KeyError
  end.

Definition df_select (df : DataFrame) (keys : list string) : res DataFrame :=
  _ ← mapM (fun key => if bool_decide (key ∈ columns df) then Ok key else Raise KeyError) keys;
  rows' ← mapM (fun row => mapM (row_get (columns df) row) keys) (rows df);
  mret (mk_df keys rows').

(** [isinstance(value, (int, float))] holds of an [int], a [bool] and a
    [float]; a numpy integer and a text go to the last line. *)
Definition _format_checkout `{Runtime} (value : cell) : res string :=
  if pd_isna value then Ok ""
  else
    match value with
    | DateTime d _ => Ok (strftime_dmy d)
    | Int _ | Bool _ | Float _ =>
        try_except
          (n ← py_int value;
           as_date ← fromordinal (toordinal EPOCH + n);
           mret (strftime_dmy as_date))
          (fun _ => Ok (py_str value))
    | _ => Ok (py_str value)
    end.

(** [int(c) if not pd.isna(c) else ""] *)
Definition personas_of_cell `{Runtime} (c : cell) : res intstr :=
  if negb (pd_isna c) then IntVal <$> py_int c else Ok (StrVal "").

Definition Pendiente : string := "Pendiente".
Definition Ingreso : string := "Ingresó".

(** The dictionary built for one row. *)
Definition build_record `{Runtime} (cols : list string) (record_id : Z)
    (row : list cell) : res record :=
  room ← row_get cols row "room number";
  persons ← row_get cols row "number of persons";
  p ← personas_of_cell persons;
  checkout ← row_get cols row "day of check out";
  s ← _format_checkout checkout;
  half_board ← row_get cols row "half-board included?";
  mret {| id := record_id;
          habitacion := py_strip (py_str room);
          personas := p;
          salida := s;
          media_pension := py_strip (py_str half_board);
          estado := Pendiente |}.

(** The loop [for _, row in df.iterrows()], with [parsed] as built so far. *)
Fixpoint parse_rows `{Runtime} (cols : list string) (rws : list (list cell))
    (parsed : list record) : M (list record) :=
  match rws with
  | [] => mret parsed
  | row :: rws' =>
      record_id ← next_record_id;
      r ← lift (build_record cols record_id row);
      parse_rows cols rws' (parsed ++ [r])
  end.

(** An uploaded file: its declared name and what [read()] returns. *)
Record FileStorage := mk_file {
  filename : string;
  content : list Byte.byte
}.

Definition _parse_file `{Runtime} (file_storage : FileStorage) : M (list record) :=
  let content := content file_storage in
  match content with
  | [] => lift (Raise (ValueError "El archivo está vacío."))
  | _ =>
      match read_excel content with
      | None =>
          lift (Raise (ValueError
            "No se pudo leer el archivo. Asegúrate de que sea un Excel válido."))
      | Some df =>
          df ← lift (_normalize_columns df);
          df ← lift (df_select df (map fst REQUIRED_COLUMNS));
          parse_rows (columns df) (rows df) []
      end
  end.

(** What a request handler leaves for the page: the flashed message and
    its category (every handler then redirects to the index). *)
Record flash := mk_flash {
  message : string;
  category : string
}.

#[global] Instance flash_eq_dec : EqDecision flash.
Proof. solve_decision. Defined.

Definition upload_ok : flash := mk_flash "Archivo cargado correctamente." "success".

(** [upload()], with [file = request.files.get("archivo")]. Only a
    [ValueError] is caught; any other exception leaves the handler. *)
Definition upload `{Runtime} (file : option FileStorage) : M flash := fun st =>
  match file with
  | None =>
      (Ok (mk_flash "Debes seleccionar un archivo de Excel antes de subirlo." "error"), st)
  | Some f =>
      if String.eqb (filename f) ""
      then (Ok (mk_flash "Debes seleccionar un archivo de Excel antes de subirlo." "error"), st)
      else
        match _parse_file f st with
        | (Raise (ValueError msg), st') => (Ok (mk_flash msg "error"), st')
        | (Raise e, st') => (Raise e, st')
        | (Ok parsed, st') =>
            (Ok upload_ok, mk_store parsed (_record_id_counter st'))
        end
  end.

(** [record["estado"] = "Ingresó" if record["estado"] == "Pendiente" else "Pendiente"] *)
Definition flip_estado (r : record) : record :=
  {| id := id r;
     habitacion := habitacion r;
     personas := personas r;
     salida := salida r;
     media_pension := media_pension r;
     estado := if String.eqb (estado r) Pendiente then Ingreso else Pendiente |}.

Definition toggle_ok : flash := mk_flash "Estado actualizado." "success".
Definition toggle_not_found : flash :=
  mk_flash "No se encontró la habitación solicitada." "error".

(** [toggle(record_id)]: the first record with that id is updated in
    place, at its position in the list. *)
Definition toggle (record_id : Z) : M flash := fun st =>
  match list_find (fun r => id r = record_id) (_records st) with
  | None => (Ok toggle_not_found, st)
  | Some (i, r) =>
      (Ok toggle_ok,
       mk_store (<[i := flip_estado r]> (_records st)) (_record_id_counter st))
  end.

(** [index()] hands [_records] to the template. *)
Definition index : M (list record) := fun st => (Ok (_records st), st).

(** ** The life of the process: a sequence of requests *)

Inductive request :=
| ReqIndex
| ReqUpload (file : option FileStorage)
| ReqToggle (record_id : Z).

(** One request: the store it leaves, and the records it created (the
    list a successful upload stored; nothing for the other requests). *)
Definition serve `{Runtime} (rq : request) (st : store) : list record * store :=
  match rq with
  | ReqIndex => ([], st)
  | ReqUpload file =>
      match upload file st with
      | (Ok fl, st') =>
          (if bool_decide (fl = upload_ok) then _records st' else [], st')
      | (Raise _, st') => ([], st')
      end
  | ReqToggle record_id => ([], (toggle record_id st).2)
  end.

(** The records created by each request of a run, oldest first, and the
    final store. *)
Fixpoint serve_all `{Runtime} (rqs : list request) (st : store)
    : list (list record) * store :=
  match rqs with
  | [] => ([], st)
  | rq :: rqs' =>
      let (created, st') := serve rq st in
      let (later, st'') := serve_all rqs' st' in
      (created :: later, st'')
  end.

(** ** The reference definitions of the specification *)

(** Python's dates cover the years 1 to 9999. *)
Definition representable (d : date) : bool :=
  (1 <=? year d) && (year d <=? 9999).

(** A header resolves a label when it equals it up to letter case and
    surrounding white space. *)
Definition resolves (cols : list string) (label : string) : Prop :=
  Exists (fun h => py_strip (py_lower h) = label) cols.

#[global] Instance resolves_dec cols label : Decision (resolves cols label).
Proof. unfold resolves. apply _. Defined.

(** The entries of [REQUIRED_COLUMNS] that no header resolves. *)
Definition unresolved (cols : list string) : list (string * string) :=
  filter (fun kv => ¬ resolves cols kv.1) REQUIRED_COLUMNS.

(** A string made of white space only. *)
Definition all_space (s : string) : Prop := py_lstrip s = "".

(** [h] is [label] with the case of some letters changed and white space
    added around it. *)
Definition header_variant (h label : string) : Prop :=
  exists pre s post,
    h = pre +:+ s +:+ post /\ all_space pre /\ all_space post
    /\ py_lower s = py_lower label.

(** The statuses a record can have. *)
Definition status_ok (r : record) : Prop :=
  estado r = Pendiente \/ estado r = Ingreso.

(** The same record, whatever its status. *)
Definition same_booking (r r' : record) : Prop :=
  id r' = id r /\ habitacion r' = habitacion r /\ personas r' = personas r
  /\ salida r' = salida r /\ media_pension r' = media_pension r.

(** ** Sample data *)

(** A runtime whose reader returns [df] for any bytes, and whose [repr]
    puts the text between two quotes, as Python does for a text without
    quotes or characters to escape. *)
Definition sample_runtime (df : DataFrame) : Runtime :=
  {| str_float := fun _ => "1.5";
     str_datetime := fun _ _ => "2024-03-05 00:00:00";
     repr_str := fun s => "'" +:+ s +:+ "'";
     read_excel := fun _ => Some df |}.

Definition sample_file : FileStorage := mk_file "reservas.xlsx" [Byte.x50; Byte.x4b].

Definition sample_df : DataFrame :=
  mk_df [" Room Number"; "NUMBER OF PERSONS"; "Day of Check Out "; "notes";
         "Half-Board Included?"]
        [ [Int 101; Int 2; Int 45000; Text "vip"; Text " yes "];
          [Text "102 "; Missing NaN; DateTime (mk_date 2024 3 5) 0; Missing NaN; Text "no"];
          [Int 103; Float (Finite 5 (-1)); Text "tomorrow"; Text ""; Bool true] ].

Definition sample_store : store :=
  mk_store
    [ mk_record 4 "7" (IntVal 1) "01/01/2024" "yes" Pendiente;
      mk_record 5 "8" (StrVal "") "" "no" Ingreso ]
    6.

(** A table whose second row has a text that is no number in the occupants
    cell. *)
Definition broken_df : DataFrame :=
  mk_df ["room number"; "number of persons"; "day of check out";
         "half-board included?"]
        [ [Int 101; Int 2; Int 45000; Text "yes"];
          [Int 102; Text "two"; Int 45001; Text "no"] ].

(** A table without the room and the half-board columns. *)
Definition no_room_df : DataFrame :=
  mk_df ["Number of persons"; "DAY OF CHECK OUT"; "notes"]
        [ [Int 2; Int 45000; Text "vip"] ].

(** A table with a date in the occupants cell. *)
Definition date_in_persons_df : DataFrame :=
  mk_df ["room number"; "number of persons"; "day of check out";
         "half-board included?"]
        [ [Int 101; DateTime (mk_date 2024 3 5) 0; Int 45000; Text "yes"] ].

(** The sample table with its columns in another order, other spellings of
    the headers and no column of notes, and a file for it. *)
Definition reordered_df : DataFrame :=
  mk_df ["half-board included?"; "DAY OF CHECK OUT"; "room number";
         "Number of Persons"]
        [ [Text " yes "; Int 45000; Int 101; Int 2];
          [Text "no"; DateTime (mk_date 2024 3 5) 0; Text "102 "; Missing NaN];
          [Bool true; Text "tomorrow"; Int 103; Float (Finite 5 (-1))] ].

Definition reordered_file : FileStorage := mk_file "otra.xlsx" [Byte.x50].

(** A runtime whose reader tells the two sample files apart. *)
Definition two_files_runtime : Runtime :=
  {| str_float := fun _ => "1.5";
     str_datetime := fun _ _ => "2024-03-05 00:00:00";
     repr_str := fun s => "'" +:+ s +:+ "'";
     read_excel := fun bytes =>
       match bytes with
       | [_] => Some reordered_df
       | _ => Some sample_df
       end |}.

(** * Proofs *)

(** ** The calendar *)

Lemma is_leap_year_agrees y : is_leap_year y = _is_leap y.
Proof.
  unfold is_leap_year, _is_leap.
  destruct (y mod 400 =? 0) eqn:E400, (y mod 100 =? 0) eqn:E100,
    (y mod 4 =? 0) eqn:E4; simpl; try reflexivity; exfalso;
    rewrite ?Z.eqb_eq, ?Z.eqb_neq in *;
    Z.to_euclidean_division_equations; lia.
Qed.

Lemma days_before_year_succ y :
  _days_before_year (y + 1)
  = _days_before_year y + 365 + (if _is_leap y then 1 else 0).
Proof.
  unfold _days_before_year, _is_leap.
  replace (y + 1 - 1) with y by lia.
  destruct (y mod 400 =? 0) eqn:E400, (y mod 100 =? 0) eqn:E100,
    (y mod 4 =? 0) eqn:E4; simpl;
    rewrite ?Z.eqb_eq, ?Z.eqb_neq in *;
    Z.to_euclidean_division_equations; lia.
Qed.

Lemma days_before_year_mono y1 y2 :
  y1 <= y2 -> _days_before_year y1 <= _days_before_year y2.
Proof.
  unfold _days_before_year. intros.
  Z.to_euclidean_division_equations. lia.
Qed.

Lemma days_before_year_split a b c e :
  0 <= b <= 3 -> 0 <= c <= 24 -> 0 <= e <= 3 ->
  _days_before_year (400 * a + 100 * b + 4 * c + e + 1)
  = 146097 * a + 36524 * b + 1461 * c + 365 * e.
Proof.
  unfold _days_before_year. intros.
  replace (400 * a + 100 * b + 4 * c + e + 1 - 1)
    with (400 * a + 100 * b + 4 * c + e) by lia.
  Z.to_euclidean_division_equations. lia.
Qed.

Lemma is_leap_split a b c e :
  0 <= b <= 3 -> 0 <= c <= 24 -> 0 <= e <= 3 ->
  _is_leap (400 * a + 100 * b + 4 * c + e + 1)
  = (e =? 3) && (negb (c =? 24) || (b =? 3)).
Proof.
  unfold _is_leap. intros.
  destruct (_ mod 400 =? 0) eqn:E400, (_ mod 100 =? 0) eqn:E100,
    (_ mod 4 =? 0) eqn:E4, (e =? 3) eqn:Ee, (c =? 24) eqn:Ec, (b =? 3) eqn:Eb;
    simpl; try reflexivity; exfalso;
    rewrite ?Z.eqb_eq, ?Z.eqb_neq in *;
    Z.to_euclidean_division_equations; lia.
Qed.

Lemma month_cases m : 1 <= m <= 12 ->
  m = 1 \/ m = 2 \/ m = 3 \/ m = 4 \/ m = 5 \/ m = 6 \/ m = 7 \/ m = 8 \/
  m = 9 \/ m = 10 \/ m = 11 \/ m = 12.
Proof. lia. Qed.

Ltac month_split m H :=
  destruct (month_cases m H) as
    [?|[?|[?|[?|[?|[?|[?|[?|[?|[?|[?|?]]]]]]]]]]]; subst m.

Lemma ord2ymd_spec n :
  1 <= n -> valid_date (_ord2ymd n) /\ toordinal (_ord2ymd n) = n.
Proof.
  intros Hn. unfold _ord2ymd, _DI400Y, _DI100Y, _DI4Y.
  set (a := (n - 1) / 146097). set (r0 := (n - 1) mod 146097).
  set (b := r0 / 36524). set (r1 := r0 mod 36524).
  set (c := r1 / 1461). set (r2 := r1 mod 1461).
  set (e := r2 / 365). set (r3 := r2 mod 365).
  assert (Hdec : n - 1 = 146097 * a + 36524 * b + 1461 * c + 365 * e + r3
                 /\ 0 <= r0 < 146097 /\ r0 = 36524 * b + r1 /\ 0 <= r1 < 36524
                 /\ r1 = 1461 * c + r2 /\ 0 <= r2 < 1461 /\ r2 = 365 * e + r3
                 /\ 0 <= r3 < 365
                 /\ 0 <= b <= 4 /\ 0 <= c <= 24 /\ 0 <= e <= 4).
  { subst a r0 b r1 c r2 e r3. Z.to_euclidean_division_equations. lia. }
  destruct Hdec as (Hsum & Hr0 & Hb & Hr1 & Hc & Hr2 & He & Hr3 & Bb & Bc & Be).
  clearbody a r0 b r1 c r2 e r3.
  destruct ((e =? 4) || (b =? 4)) eqn:Hlast.
  - apply orb_true_iff in Hlast. rewrite !Z.eqb_eq in Hlast.
    unfold valid_date, toordinal, _ymd2ord, _days_before_month; simpl.
    assert (Hy : (b = 4 /\ c = 0 /\ e = 0 /\ r3 = 0) \/ (b <= 3 /\ e = 4 /\ c <= 23 /\ r3 = 0)) by lia.
    destruct Hy as [(-> & -> & -> & ->)|(Hb3 & -> & Hc3 & ->)].
    + replace (a * 400 + 1 + 4 * 100 + 0 * 4 + 0 - 1)
        with (400 * a + 100 * 3 + 4 * 24 + 3 + 1) by lia.
      rewrite is_leap_split, days_before_year_split by lia. simpl. lia.
    + replace (a * 400 + 1 + b * 100 + c * 4 + 4 - 1)
        with (400 * a + 100 * b + 4 * c + 3 + 1) by lia.
      rewrite is_leap_split, days_before_year_split by lia.
      replace (c =? 24) with false by (symmetry; apply Z.eqb_neq; lia).
      simpl. lia.
  - apply orb_false_iff in Hlast. rewrite !Z.eqb_neq in Hlast.
    assert (Bb' : 0 <= b <= 3) by lia. assert (Be' : 0 <= e <= 3) by lia.
    replace (a * 400 + 1 + b * 100 + c * 4 + e)
      with (400 * a + 100 * b + 4 * c + e + 1) by lia.
    set (leap := (e =? 3) && (negb (c =? 24) || (b =? 3))).
    rewrite Z.shiftr_div_pow2 by lia.
    set (m := (r3 + 50) / 2 ^ 5).
    assert (Hm : 1 <= m <= 12 /\ 32 * m <= r3 + 50 < 32 * m + 32).
    { subst m. change (2 ^ 5) with 32. Z.to_euclidean_division_equations. lia. }
    destruct Hm as [Hm Hmr]. clearbody m.
    unfold valid_date, toordinal, _ymd2ord, _days_before_month.
    month_split m Hm; unfold _DAYS_IN_MONTH, month_length; simpl;
      destruct leap eqn:Hleap; simpl;
      match goal with
      | |- context [if ?x <? ?y then _ else _] => destruct (Z.ltb_spec x y)
      end;
      simpl;
      rewrite ?is_leap_year_agrees, ?is_leap_split, ?days_before_year_split by lia;
      fold leap; rewrite ?Hleap; lia.
Qed.

Lemma month_length_days_in_month y m :
  month_length y m = _days_in_month y m.
Proof.
  unfold month_length, _days_in_month, _DAYS_IN_MONTH.
  rewrite is_leap_year_agrees.
  destruct m as [|p|p]; try (destruct (_is_leap y); reflexivity).
  do 4 (destruct p as [p|p|]; try (destruct (_is_leap y); reflexivity)).
Qed.

(** The day of the year of a valid date lies within the year. *)
Lemma day_of_year_bounds d :
  valid_date d ->
  1 <= _days_before_month (year d) (month d) + day d
    <= 365 + (if _is_leap (year d) then 1 else 0).
Proof.
  destruct d as [y m dd]. unfold valid_date, _days_before_month, month_length.
  simpl. rewrite is_leap_year_agrees. intros [Hm Hd].
  month_split m Hm; simpl in *; destruct (_is_leap y); simpl; lia.
Qed.

Lemma next_day_spec d :
  valid_date d ->
  valid_date (next_day d) /\ toordinal (next_day d) = toordinal d + 1.
Proof.
  destruct d as [y m dd].
  unfold valid_date, next_day, toordinal, _ymd2ord, _days_before_month.
  simpl. intros [Hm Hd].
  destruct (Z.ltb_spec dd (month_length y m)) as [Hlt|Hge]; simpl.
  - lia.
  - destruct (Z.ltb_spec m 12) as [Hm12|Hm12]; simpl.
    + assert (Hm' : 1 <= m <= 11) by lia. clear Hm Hm12.
      assert (Hc : m = 1 \/ m = 2 \/ m = 3 \/ m = 4 \/ m = 5 \/ m = 6 \/
                   m = 7 \/ m = 8 \/ m = 9 \/ m = 10 \/ m = 11) by lia.
      destruct Hc as [?|[?|[?|[?|[?|[?|[?|[?|[?|[?|?]]]]]]]]]]; subst m;
        unfold month_length in *; simpl in *;
        rewrite ?is_leap_year_agrees in *; destruct (_is_leap y); simpl; lia.
    + assert (m = 12) by lia. subst m.
      rewrite days_before_year_succ. unfold month_length in *. simpl in *.
      destruct (_is_leap y), (_is_leap (y + 1)); simpl; lia.
Qed.

Lemma prev_day_spec d :
  valid_date d ->
  valid_date (prev_day d) /\ toordinal (prev_day d) = toordinal d - 1.
Proof.
  destruct d as [y m dd].
  unfold valid_date, prev_day, toordinal, _ymd2ord, _days_before_month.
  simpl. intros [Hm Hd].
  destruct (Z.ltb_spec 1 dd) as [Hlt|Hge]; simpl.
  - lia.
  - destruct (Z.ltb_spec 1 m) as [Hm1|Hm1]; simpl.
    + assert (Hc : m = 2 \/ m = 3 \/ m = 4 \/ m = 5 \/ m = 6 \/
                   m = 7 \/ m = 8 \/ m = 9 \/ m = 10 \/ m = 11 \/ m = 12) by lia.
      destruct Hc as [?|[?|[?|[?|[?|[?|[?|[?|[?|[?|?]]]]]]]]]]; subst m;
        unfold month_length in *; simpl in *;
        rewrite ?is_leap_year_agrees in *; destruct (_is_leap y); simpl; lia.
    + assert (m = 1) by lia. subst m.
      pose proof (days_before_year_succ (y - 1)) as Hs.
      replace (y - 1 + 1) with y in Hs by lia. rewrite Hs.
      unfold month_length in *. simpl in *.
      destruct (_is_leap y), (_is_leap (y - 1)); simpl; lia.
Qed.

(** A later date has a larger ordinal: [toordinal] is one to one. *)
Lemma toordinal_year_lt d1 d2 :
  valid_date d1 -> valid_date d2 -> year d1 < year d2 ->
  toordinal d1 < toordinal d2.
Proof.
  intros H1 H2 Hy. unfold toordinal, _ymd2ord.
  pose proof (day_of_year_bounds d1 H1). pose proof (day_of_year_bounds d2 H2).
  pose proof (days_before_year_succ (year d1)).
  pose proof (days_before_year_mono (year d1 + 1) (year d2)). lia.
Qed.

Lemma toordinal_month_lt y m1 m2 dd1 dd2 :
  valid_date (mk_date y m1 dd1) -> valid_date (mk_date y m2 dd2) -> m1 < m2 ->
  toordinal (mk_date y m1 dd1) < toordinal (mk_date y m2 dd2).
Proof.
  unfold valid_date, toordinal, _ymd2ord, _days_before_month, month_length.
  simpl. rewrite is_leap_year_agrees. intros [Hm1 Hd1] [Hm2 Hd2] Hlt.
  month_split m1 Hm1; month_split m2 Hm2; try lia;
    simpl in *; destruct (_is_leap y); simpl; lia.
Qed.

Lemma toordinal_inj d1 d2 :
  valid_date d1 -> valid_date d2 -> toordinal d1 = toordinal d2 -> d1 = d2.
Proof.
  intros H1 H2 Heq.
  destruct (Z.lt_trichotomy (year d1) (year d2)) as [Hy|[Hy|Hy]].
  - pose proof (toordinal_year_lt d1 d2 H1 H2 Hy). lia.
  - destruct d1 as [y1 m1 dd1], d2 as [y2 m2 dd2]. simpl in Hy. subst y2.
    destruct (Z.lt_trichotomy m1 m2) as [Hm|[Hm|Hm]].
    + pose proof (toordinal_month_lt y1 m1 m2 dd1 dd2 H1 H2 Hm). lia.
    + subst m2. unfold toordinal, _ymd2ord in Heq. simpl in Heq.
      f_equal. lia.
    + pose proof (toordinal_month_lt y1 m2 m1 dd2 dd1 H2 H1 Hm). lia.
  - pose proof (toordinal_year_lt d2 d1 H2 H1 Hy). lia.
Qed.

Lemma iter_next_day_spec (k : nat) d :
  valid_date d ->
  valid_date (Nat.iter k next_day d)
  /\ toordinal (Nat.iter k next_day d) = toordinal d + Z.of_nat k.
Proof.
  intros Hd. induction k as [|k [IHv IHo]]; simpl.
  - split; [assumption | lia].
  - destruct (next_day_spec _ IHv) as [Hv Ho]. split; [assumption | lia].
Qed.

Lemma iter_prev_day_spec (k : nat) d :
  valid_date d ->
  valid_date (Nat.iter k prev_day d)
  /\ toordinal (Nat.iter k prev_day d) = toordinal d - Z.of_nat k.
Proof.
  intros Hd. induction k as [|k [IHv IHo]]; simpl.
  - split; [assumption | lia].
  - destruct (prev_day_spec _ IHv) as [Hv Ho]. split; [assumption | lia].
Qed.

Lemma Z_iter_nat {A} (f : A -> A) n x :
  0 <= n -> Z.iter n f x = Nat.iter (Z.to_nat n) f x.
Proof.
  intros Hn. destruct n as [|p|p]; try lia; simpl.
  - reflexivity.
  - apply Pos2Nat.inj_iter.
Qed.

Lemma days_after_spec d n :
  valid_date d ->
  valid_date (days_after d n) /\ toordinal (days_after d n) = toordinal d + n.
Proof.
  intros Hd. unfold days_after. destruct (Z.leb_spec 0 n) as [Hn|Hn].
  - rewrite Z_iter_nat by lia.
    destruct (iter_next_day_spec (Z.to_nat n) d Hd) as [Hv Ho].
    split; [assumption | lia].
  - rewrite Z_iter_nat by lia.
    destruct (iter_prev_day_spec (Z.to_nat (- n)) d Hd) as [Hv Ho].
    split; [assumption | lia].
Qed.

Lemma EPOCH_valid : valid_date EPOCH.
Proof. unfold valid_date, EPOCH; simpl; lia. Qed.

(** The library's conversion from an ordinal computes the date that many
    days away from the epoch. *)
Lemma ord2ymd_days_after n :
  1 <= toordinal EPOCH + n ->
  _ord2ymd (toordinal EPOCH + n) = days_after EPOCH n.
Proof.
  intros Hn.
  destruct (ord2ymd_spec _ Hn) as [Hv Ho].
  destruct (days_after_spec EPOCH n EPOCH_valid) as [Hv' Ho'].
  apply toordinal_inj; [assumption | assumption | lia].
Qed.

(** A valid date lies in the years 1 to 9999 exactly when its ordinal lies
    between 1 and [_MAXORDINAL]. *)
Lemma year_range_ordinal d :
  valid_date d ->
  (1 <= year d <= 9999 <-> 1 <= toordinal d <= _MAXORDINAL).
Proof.
  intros Hd. pose proof (day_of_year_bounds d Hd) as Hb.
  unfold toordinal, _ymd2ord, _MAXORDINAL.
  rewrite <- Z.add_assoc.
  pose proof (days_before_year_succ (year d)) as Hs.
  split.
  - intros [Hlo Hhi].
    pose proof (days_before_year_mono 1 (year d) Hlo) as H1.
    pose proof (days_before_year_mono (year d + 1) 10000 ltac:(lia)) as H2.
    change (_days_before_year 1) with 0 in H1.
    change (_days_before_year 10000) with 3652059 in H2. lia.
  - intros [Hlo Hhi].
    destruct (Z.lt_ge_cases (year d) 1) as [Hy|Hy].
    + pose proof (days_before_year_mono (year d + 1) 1 ltac:(lia)) as H1.
      change (_days_before_year 1) with 0 in H1. lia.
    + split; [assumption|].
      destruct (Z.lt_ge_cases 9999 (year d)) as [Hy'|Hy']; [|lia].
      pose proof (days_before_year_mono 10000 (year d) ltac:(lia)) as H2.
      change (_days_before_year 10000) with 3652059 in H2. lia.
Qed.

(** ** The checkout formatter *)

Lemma representable_ordinal d :
  valid_date d ->
  representable d = true <-> 1 <= toordinal d <= _MAXORDINAL.
Proof.
  intros Hd. rewrite <- (year_range_ordinal d Hd). unfold representable.
  rewrite andb_true_iff, Z.leb_le, Z.leb_le. reflexivity.
Qed.

(** The day counts whose date Python can hold. *)
Lemma day_count_in_range n :
  representable (days_after EPOCH n) = true <-> -693593 <= n <= 2958465.
Proof.
  destruct (days_after_spec EPOCH n EPOCH_valid) as [Hv Ho].
  rewrite (representable_ordinal _ Hv), Ho.
  change (toordinal EPOCH) with 693594. unfold _MAXORDINAL. lia.
Qed.

(** A number of days: the formatter prints the date that many days after
    the epoch when the calendar has one, and the number otherwise. *)
Lemma format_serial `{Runtime} value n :
  pd_isna value = false ->
  py_int value = Ok n ->
  try_except
    (n ← py_int value;
     as_date ← fromordinal (toordinal EPOCH + n);
     mret (strftime_dmy as_date))
    (fun _ => Ok (py_str value))
  = Ok (if representable (days_after EPOCH n)
        then strftime_dmy (days_after EPOCH n) else py_str value).
Proof.
  intros _ ->. simpl.
  destruct (days_after_spec EPOCH n EPOCH_valid) as [Hv Ho].
  pose proof (representable_ordinal _ Hv) as Hr. rewrite Ho in Hr.
  unfold fromordinal, _MAXORDINAL in *.
  destruct (representable (days_after EPOCH n)).
  - assert (Hrange : 1 <= toordinal EPOCH + n <= 3652059) by (apply Hr; reflexivity).
    replace ((toordinal EPOCH + n <? - 2 ^ 31) || (2 ^ 31 - 1 <? toordinal EPOCH + n))
      with false by (symmetry; apply orb_false_iff; split; apply Z.ltb_ge; lia).
    replace (toordinal EPOCH + n <? 1) with false by (symmetry; apply Z.ltb_ge; lia).
    replace (3652059 <? toordinal EPOCH + n) with false
      by (symmetry; apply Z.ltb_ge; lia).
    simpl. rewrite ord2ymd_days_after by lia. reflexivity.
  - destruct ((_ <? _) || (_ <? _)); [reflexivity|].
    destruct (Z.ltb_spec (toordinal EPOCH + n) 1); [reflexivity|].
    destruct (Z.ltb_spec 3652059 (toordinal EPOCH + n)); [reflexivity|].
    assert (false = true) by (apply Hr; lia). discriminate.
Qed.

(** A Python [int]: the date that many days after the epoch, or the number
    printed as it is. *)
Lemma format_checkout_Int `{Runtime} n :
  _format_checkout (Int n)
  = Ok (if representable (days_after EPOCH n)
        then strftime_dmy (days_after EPOCH n) else str_int n).
Proof. apply (format_serial (Int n) n); reflexivity. Qed.

Lemma format_checkout_total `{Runtime} value :
  exists s, _format_checkout value = Ok s.
Proof.
  destruct value as [k|d t|n|n|b|x|s]; unfold _format_checkout;
    simpl pd_isna; cbv iota; try (eexists; reflexivity);
    unfold try_except;
    match goal with
    | |- context [match ?body with Ok _ => _ | Raise _ => _ end] => destruct body
    end; eauto.
Qed.

(** What [str] prints for an integer has no stroke in it, so it is never
    the text of a date. *)
Lemma uint_no_stroke d :
  Forall (fun c => c <> "/"%char)
    (list_ascii_of_string (NilEmpty.string_of_uint d)).
Proof. induction d; simpl; constructor; try discriminate; assumption. Qed.

Lemma str_int_no_stroke n :
  Forall (fun c => c <> "/"%char) (list_ascii_of_string (str_int n)).
Proof.
  unfold str_int. destruct n as [|p|p]; simpl.
  - repeat constructor. discriminate.
  - pose proof (Unsigned.to_uint_nonnil p) as Hnil.
    destruct (Pos.to_uint p) eqn:Hp; [congruence|..];
      rewrite <- Hp; unfold NilZero.string_of_uint; rewrite Hp;
      apply uint_no_stroke.
  - constructor; [discriminate|].
    pose proof (Unsigned.to_uint_nonnil p) as Hnil.
    destruct (Pos.to_uint p) eqn:Hp; [congruence|..];
      rewrite <- Hp; unfold NilZero.string_of_uint; rewrite Hp;
      apply uint_no_stroke.
Qed.

Lemma str_int_not_a_date n d : str_int n <> strftime_dmy d.
Proof.
  intros Heq. pose proof (str_int_no_stroke n) as Hn. rewrite Heq in Hn.
  unfold strftime_dmy, pad2 in Hn. cbn [String.append list_ascii_of_string] in Hn.
  inversion Hn as [|? ? _ Hn1]; subst.
  inversion Hn1 as [|? ? _ Hn2]; subst.
  inversion Hn2 as [|? ? Hstroke _]; subst.
  apply Hstroke. reflexivity.
Qed.

(** C3, at a numpy integer. The rows of a table whose columns are all
    integers hold numpy integers, which are no instances of [int]: for a
    day count [n] that has a date, the formatter returns the digits of [n]
    and not the date [n] days after 1899-12-30, which it does return when
    the same count comes as a Python [int]. *)
Theorem C3_numpy_integer_cell `{Runtime} (n : Z) :
  -693593 <= n <= 2958465 ->
  _format_checkout (NpInt n) = Ok (str_int n)
  /\ _format_checkout (NpInt n) <> Ok (strftime_dmy (days_after EPOCH n))
  /\ _format_checkout (Int n) = Ok (strftime_dmy (days_after EPOCH n)).
Proof.
  intros Hn. split; [reflexivity|]. split.
  - intros [= Heq]. exact (str_int_not_a_date _ _ Heq).
  - rewrite format_checkout_Int.
    rewrite (proj2 (day_count_in_range n) Hn). reflexivity.
Qed.

Lemma C3_numpy_integer_cell_witness :
  @_format_checkout (sample_runtime sample_df) (NpInt 45000) = Ok "45000"
  /\ @_format_checkout (sample_runtime sample_df) (Int 45000) = Ok "15/03/2023".
Proof.
  destruct (@C3_numpy_integer_cell (sample_runtime sample_df) 45000 ltac:(lia))
    as (Hnp & _ & Hint).
  split; [exact Hnp | exact Hint].
Defined.

(** C8 as amended. For a text cell the checkout formatter returns the text
    as it is: white space around it is kept. *)
Theorem C8_format_checkout_text `{Runtime} (s : string) :
  _format_checkout (Text s) = Ok s.
Proof. reflexivity. Qed.

(** C8 as stated fails: the text [" late "] comes back with its spaces. *)
Lemma C8_counterexample :
  @_format_checkout (sample_runtime sample_df) (Text " late ") = Ok " late "
  /\ @_format_checkout (sample_runtime sample_df) (Text " late ")
     <> Ok (py_strip " late ").
Proof. split; [reflexivity | discriminate]. Qed.

(** ** Exceptions and the loop over the rows *)

Lemma bind_Ok {A B} (m : res A) (f : A -> res B) b :
  m ≫= f = Ok b <-> exists a, m = Ok a /\ f a = Ok b.
Proof.
  destruct m as [a|e]; simpl.
  - split; [eauto | intros (a' & [= <-] & Hf); exact Hf].
  - split; [discriminate | intros (a' & [=] & _)].
Qed.

Lemma mapM_Ok {A B} (f : A -> res B) l l' :
  mapM f l = Ok l' <-> Forall2 (fun x y => f x = Ok y) l l'.
Proof.
  revert l'. induction l as [|x l IH]; intros l'; simpl.
  - split.
    + intros [= <-]. constructor.
    + intros Hl. inversion Hl. reflexivity.
  - rewrite bind_Ok. split.
    + intros (y & Hy & Hrest). apply bind_Ok in Hrest as (k & Hk & [= <-]).
      constructor; [assumption | apply IH; assumption].
    + intros Hl. inversion Hl as [|? y ? k Hy Hk]; subst.
      exists y. split; [assumption|]. apply bind_Ok. exists k.
      split; [apply IH; assumption | reflexivity].
Qed.

Lemma build_record_Ok `{Runtime} cols record_id row r :
  build_record cols record_id row = Ok r <->
  exists room persons checkout half_board p s,
    row_get cols row "room number" = Ok room
    /\ row_get cols row "number of persons" = Ok persons
    /\ personas_of_cell persons = Ok p
    /\ row_get cols row "day of check out" = Ok checkout
    /\ _format_checkout checkout = Ok s
    /\ row_get cols row "half-board included?" = Ok half_board
    /\ r = mk_record record_id (py_strip (py_str room)) p s
             (py_strip (py_str half_board)) Pendiente.
Proof.
  unfold build_record. split.
  - intros Hb.
    apply bind_Ok in Hb as (room & Hroom & Hb).
    apply bind_Ok in Hb as (persons & Hpersons & Hb).
    apply bind_Ok in Hb as (p & Hp & Hb).
    apply bind_Ok in Hb as (checkout & Hcheckout & Hb).
    apply bind_Ok in Hb as (s & Hs & Hb).
    apply bind_Ok in Hb as (half_board & Hhalf & [= <-]).
    exists room, persons, checkout, half_board, p, s. auto 10.
  - intros (room & persons & checkout & half_board & p & s
            & -> & -> & Hp & -> & Hs & -> & ->).
    simpl. rewrite Hp. simpl. rewrite Hs. reflexivity.
Qed.

Lemma build_record_id `{Runtime} cols record_id row r :
  build_record cols record_id row = Ok r ->
  id r = record_id /\ estado r = Pendiente.
Proof.
  intros Hb. apply build_record_Ok in Hb
    as (? & ? & ? & ? & ? & ? & _ & _ & _ & _ & _ & _ & ->).
  split; reflexivity.
Qed.

(** Whether a row can be built does not depend on the id it would get. *)
Lemma build_record_Raise `{Runtime} cols i j row e :
  build_record cols i row = Raise e -> build_record cols j row = Raise e.
Proof.
  unfold build_record.
  destruct (row_get cols row "room number"); simpl; [|trivial].
  destruct (row_get cols row "number of persons"); simpl; [|trivial].
  destruct (personas_of_cell _); simpl; [|trivial].
  destruct (row_get cols row "day of check out"); simpl; [|trivial].
  destruct (_format_checkout _); simpl; [|trivial].
  destruct (row_get cols row "half-board included?"); simpl; [discriminate|trivial].
Qed.

Lemma parse_rows_cons `{Runtime} cols row rws parsed st :
  parse_rows cols (row :: rws) parsed st
  = match build_record cols (_record_id_counter st) row with
    | Ok r =>
        parse_rows cols rws (parsed ++ [r])
          (mk_store (_records st) (_record_id_counter st + 1))
    | Raise e => (Raise e, mk_store (_records st) (_record_id_counter st + 1))
    end.
Proof.
  simpl. unfold mbind, M_bind, next_record_id, lift.
  destruct (build_record cols (_record_id_counter st) row); reflexivity.
Qed.

(** The loop never touches the stored records, and only moves the counter
    forward. *)
Lemma parse_rows_store `{Runtime} cols rws parsed st out st' :
  parse_rows cols rws parsed st = (out, st') ->
  _records st' = _records st
  /\ _record_id_counter st <= _record_id_counter st'.
Proof.
  revert parsed st. induction rws as [|row rws IH]; intros parsed st.
  - intros [= <- <-]. split; [reflexivity | lia].
  - rewrite parse_rows_cons.
    destruct (build_record cols (_record_id_counter st) row) as [r|e].
    + intros Hp. apply IH in Hp as [Hr Hc]. simpl in *. split; [assumption | lia].
    + intros [= <- <-]. simpl. split; [reflexivity | lia].
Qed.

(** When the loop ends normally it has appended one record per row, in
    the order of the rows, numbered from the counter on. *)
Lemma parse_rows_Ok `{Runtime} cols rws parsed st out st' :
  parse_rows cols rws parsed st = (Ok out, st') ->
  exists new,
    out = (parsed ++ new)%list
    /\ Forall2 (fun row r => build_record cols (id r) row = Ok r) rws new
    /\ map id new = seqZ (_record_id_counter st) (Z.of_nat (length rws))
    /\ _record_id_counter st'
       = _record_id_counter st + Z.of_nat (length rws).
Proof.
  revert parsed st. induction rws as [|row rws IH]; intros parsed st.
  - intros [= <- <-]. exists []. rewrite app_nil_r.
    repeat split; [constructor | simpl; lia].
  - rewrite parse_rows_cons.
    destruct (build_record cols (_record_id_counter st) row) as [r|e] eqn:Hb;
      [|discriminate].
    intros Hp. apply IH in Hp as (new & -> & Hnew & Hids & Hc). simpl in *.
    destruct (build_record_id _ _ _ _ Hb) as [Hid _].
    exists (r :: new). split; [rewrite <- app_assoc; reflexivity|].
    split; [constructor; [rewrite Hid; assumption | assumption]|].
    split.
    + rewrite seqZ_cons by lia. simpl. rewrite Hid. f_equal.
      rewrite Hids. f_equal; lia.
    + lia.
Qed.

(** One row that cannot be built makes the loop raise. *)
Lemma parse_rows_Raise `{Runtime} cols rws parsed st row e :
  row ∈ rws ->
  build_record cols 0 row = Raise e ->
  exists e' st', parse_rows cols rws parsed st = (Raise e', st').
Proof.
  revert parsed st. induction rws as [|row' rws IH]; intros parsed st Hin Hb.
  - inversion Hin.
  - rewrite parse_rows_cons.
    destruct (build_record cols (_record_id_counter st) row') as [r|e'] eqn:Hb'.
    + apply IH; [|assumption].
      apply elem_of_cons in Hin as [->|Hin]; [|assumption].
      apply (build_record_Raise _ _ (_record_id_counter st)) in Hb. congruence.
    + eauto.
Qed.


(** ** The ingestion pipeline *)

Lemma df_select_Ok df keys df2 :
  df_select df keys = Ok df2 ->
  columns df2 = keys
  /\ Forall2 (fun row prow => mapM (row_get (columns df) row) keys = Ok prow)
       (rows df) (rows df2).
Proof.
  unfold df_select. intros Hs.
  apply bind_Ok in Hs as (ks & _ & Hs).
  apply bind_Ok in Hs as (rows' & Hrows & [= <-]).
  split; [reflexivity | apply mapM_Ok, Hrows].
Qed.

(** A row reduced to the four required columns builds the same record. *)
Lemma build_record_projected `{Runtime} cols row prow record_id :
  mapM (row_get cols row) (map fst REQUIRED_COLUMNS) = Ok prow ->
  build_record (map fst REQUIRED_COLUMNS) record_id prow
  = build_record cols record_id row.
Proof.
  intros Hp. apply mapM_Ok in Hp. simpl in Hp.
  inversion Hp as [|? c1 ? p1 H1 Hp1]; subst.
  inversion Hp1 as [|? c2 ? p2 H2 Hp2]; subst.
  inversion Hp2 as [|? c3 ? p3 H3 Hp3]; subst.
  inversion Hp3 as [|? c4 ? p4 H4 Hp4]; subst.
  inversion Hp4; subst.
  unfold build_record. rewrite H1, H2, H3, H4. reflexivity.
Qed.

Lemma parse_file_Ok `{Runtime} f st out st' :
  _parse_file f st = (Ok out, st') ->
  exists df df1 df2,
    content f <> []
    /\ read_excel (content f) = Some df
    /\ _normalize_columns df = Ok df1
    /\ df_select df1 (map fst REQUIRED_COLUMNS) = Ok df2
    /\ parse_rows (columns df2) (rows df2) [] st = (Ok out, st').
Proof.
  unfold _parse_file. destruct (content f) as [|b bs] eqn:Hc; [discriminate|].
  destruct (read_excel (b :: bs)) as [df|] eqn:Hread; [|discriminate].
  unfold mbind, M_bind, lift.
  destruct (_normalize_columns df) as [df1|] eqn:Hn; [|discriminate].
  destruct (df_select df1 _) as [df2|] eqn:Hs; [|discriminate].
  intros Hp. exists df, df1, df2. repeat split; try assumption. discriminate.
Qed.

Lemma parse_file_store `{Runtime} f st out st' :
  _parse_file f st = (out, st') ->
  _records st' = _records st
  /\ _record_id_counter st <= _record_id_counter st'.
Proof.
  unfold _parse_file. destruct (content f) as [|b bs].
  { intros [= <- <-]. split; [reflexivity | lia]. }
  destruct (read_excel (b :: bs)) as [df|].
  2: { intros [= <- <-]. split; [reflexivity | lia]. }
  unfold mbind, M_bind, lift.
  destruct (_normalize_columns df) as [df1|].
  2: { intros [= <- <-]. split; [reflexivity | lia]. }
  destruct (df_select df1 _) as [df2|].
  2: { intros [= <- <-]. split; [reflexivity | lia]. }
  apply parse_rows_store.
Qed.

(** What a successful parse returns: one record per row of the frame, in
    the order of the rows, numbered from the counter on. *)
Lemma parse_file_records `{Runtime} f st out st' df :
  read_excel (content f) = Some df ->
  _parse_file f st = (Ok out, st') ->
  exists df1,
    _normalize_columns df = Ok df1
    /\ Forall2 (fun row r => build_record (columns df1) (id r) row = Ok r)
         (rows df) out
    /\ map id out = seqZ (_record_id_counter st) (Z.of_nat (length (rows df)))
    /\ _record_id_counter st'
       = _record_id_counter st + Z.of_nat (length (rows df)).
Proof.
  intros Hread Hp.
  apply parse_file_Ok in Hp as (df' & df1 & df2 & _ & Hread' & Hn & Hs & Hp).
  assert (df' = df) by congruence. subst df'.
  apply df_select_Ok in Hs as [Hcols Hrows].
  apply parse_rows_Ok in Hp as (new & -> & Hnew & Hids & Hc). simpl.
  pose proof (Forall2_length _ _ _ Hrows) as Hlen.
  assert (Hdf1 : rows df1 = rows df).
  { unfold _normalize_columns in Hn.
    destruct (negb _); [apply bind_Ok in Hn as (? & _ & [=])|].
    apply bind_Ok in Hn as (? & _ & [= <-]). reflexivity. }
  rewrite Hdf1 in *. rewrite Hlen.
  exists df1. repeat split; try assumption.
  rewrite Hcols in Hnew. clear - Hrows Hnew.
  revert new Hnew. induction Hrows as [|row prow rws prws Hrow Hrws IH];
    intros new Hnew; inversion Hnew; subst; constructor.
  - rewrite <- (build_record_projected _ _ _ _ Hrow). assumption.
  - apply IH. assumption.
Qed.

(** ** The store *)

(** The three ways [upload] ends. *)
Lemma upload_cases `{Runtime} file st out st' :
  upload file st = (out, st') ->
  (exists f parsed st1,
      file = Some f /\ filename f <> ""
      /\ _parse_file f st = (Ok parsed, st1)
      /\ out = Ok upload_ok
      /\ st' = mk_store parsed (_record_id_counter st1))
  \/ (out <> Ok upload_ok
      /\ _records st' = _records st
      /\ _record_id_counter st <= _record_id_counter st').
Proof.
  unfold upload. destruct file as [f|].
  2: { intros [= <- <-]. right. split; [discriminate|]. split; [reflexivity|lia]. }
  destruct (String.eqb_spec (filename f) "") as [Hname|Hname].
  { intros [= <- <-]. right. split; [discriminate|]. split; [reflexivity|lia]. }
  destruct (_parse_file f st) as [[parsed|e] st1] eqn:Hp.
  - intros [= <- <-]. left. exists f, parsed, st1. auto.
  - apply parse_file_store in Hp as [Hr Hc].
    destruct e; intros [= <- <-]; right; (split; [discriminate|]); auto.
Qed.

Lemma seqZ_sorted m n : StronglySorted Z.lt (seqZ m n).
Proof.
  destruct (Z.le_gt_cases n 0) as [Hn|Hn].
  { rewrite seqZ_nil by assumption. constructor. }
  rewrite <- (Z2Nat.id n) by lia. generalize (Z.to_nat n) as k. clear.
  intros k. revert m. induction k as [|k IH]; intros m.
  - rewrite seqZ_nil by lia. constructor.
  - rewrite seqZ_cons by lia. constructor.
    + replace (Z.pred (Z.of_nat (S k))) with (Z.of_nat k) by lia. apply IH.
    + apply Forall_seqZ. lia.
Qed.

(** C1. After a successful upload of a table of [n] rows the store holds
    [n] records: the i-th is the one built from the i-th row, under the
    renamed headers; their ids are the [n] values the counter gives from
    its value before the upload, so they ascend along the rows; each
    status is [Pendiente]; and no record the store held before remains
    (the ids of those lie below the counter). *)
Theorem C1_upload_replaces_store `{Runtime} f st st' df :
  read_excel (content f) = Some df ->
  upload (Some f) st = (Ok upload_ok, st') ->
  length (_records st') = length (rows df)
  /\ (exists df1,
        _normalize_columns df = Ok df1
        /\ Forall2 (fun row r => build_record (columns df1) (id r) row = Ok r)
             (rows df) (_records st'))
  /\ map id (_records st')
     = seqZ (_record_id_counter st) (Z.of_nat (length (rows df)))
  /\ StronglySorted Z.lt (map id (_records st'))
  /\ Forall (fun r => estado r = Pendiente) (_records st')
  /\ (Forall (fun r => id r < _record_id_counter st) (_records st) ->
      forall r, r ∈ _records st -> r ∉ _records st').
Proof.
  intros Hread Hup.
  apply upload_cases in Hup as [(f' & parsed & st1 & [= <-] & _ & Hp & _ & ->)|[Hne _]];
    [|congruence].
  simpl. destruct (parse_file_records _ _ _ _ _ Hread Hp) as (df1 & Hn & Hrec & Hids & _).
  split; [symmetry; eapply Forall2_length; eassumption|].
  split; [exists df1; split; assumption|].
  split; [assumption|].
  split; [rewrite Hids; apply seqZ_sorted|].
  split.
  - clear - Hrec. induction Hrec as [|row r rws rs Hb _ IH]; constructor.
    + apply build_record_id in Hb as [_ He]. exact He.
    + exact IH.
  - intros Hold r Hr Hr'.
    rewrite Forall_forall in Hold. specialize (Hold r Hr).
    assert (Hin : id r ∈ map id parsed) by (apply list_elem_of_fmap; eauto).
    rewrite Hids in Hin. apply elem_of_seqZ in Hin. lia.
Qed.

Lemma C1_upload_witness :
  length (_records (@upload (sample_runtime sample_df) (Some sample_file) sample_store).2) = 3%nat
  /\ map id (_records (@upload (sample_runtime sample_df) (Some sample_file) sample_store).2)
     = [6; 7; 8].
Proof.
  pose proof (@C1_upload_replaces_store (sample_runtime sample_df) sample_file
                sample_store
                (@upload (sample_runtime sample_df) (Some sample_file) sample_store).2
                sample_df eq_refl eq_refl) as (Hlen & _ & Hids & _).
  split; [exact Hlen | exact Hids].
Defined.

(** C2. An upload that does not end with the success message leaves the
    stored records as they were; this covers every way the parse can
    raise (empty content, unreadable content, missing columns, an error
    while a record is built, caught by the handler or not). The records
    after an upload are the old list or the complete new one. *)
Theorem C2_failed_upload_keeps_store `{Runtime} file st out st' :
  upload file st = (out, st') ->
  (out <> Ok upload_ok -> _records st' = _records st)
  /\ (forall f e st1,
        file = Some f -> _parse_file f st = (Raise e, st1) ->
        out <> Ok upload_ok /\ _records st' = _records st)
  /\ (forall f,
        file = Some f -> filename f <> "" -> content f = [] ->
        out = Ok (mk_flash "El archivo está vacío." "error") /\ st' = st)
  /\ (_records st' = _records st
      \/ exists f st1, file = Some f
                       /\ _parse_file f st = (Ok (_records st'), st1)).
Proof.
  intros Hup. split; [|split; [|split]].
  - intros Hne. apply upload_cases in Hup as [(? & ? & ? & _ & _ & _ & -> & _)|(_ & Hr & _)];
      [congruence | exact Hr].
  - intros f e st1 -> Hp. unfold upload in Hup. rewrite Hp in Hup.
    apply parse_file_store in Hp as [Hr _].
    destruct (String.eqb (filename f) ""); [injection Hup as <- <-; split; [discriminate|reflexivity]|].
    destruct e; injection Hup as <- <-; split; solve [discriminate | assumption].
  - intros f -> Hname Hc. unfold upload, _parse_file in Hup.
    apply String.eqb_neq in Hname. rewrite Hname, Hc in Hup.
    injection Hup as <- <-. split; reflexivity.
  - apply upload_cases in Hup as [(f & parsed & st1 & -> & _ & Hp & _ & ->)|(_ & Hr & _)].
    + right. exists f, st1. split; [reflexivity | exact Hp].
    + left. exact Hr.
Qed.

Lemma C2_failed_upload_witness :
  _records (@upload (sample_runtime broken_df) (Some sample_file) sample_store).2
  = _records sample_store.
Proof.
  refine (proj1 (@C2_failed_upload_keeps_store (sample_runtime broken_df)
                   (Some sample_file) sample_store
                   (@upload (sample_runtime broken_df) (Some sample_file) sample_store).1
                   (@upload (sample_runtime broken_df) (Some sample_file) sample_store).2
                   eq_refl) _).
  vm_compute. discriminate.
Defined.

(** ** Toggling *)

Lemma flip_estado_same r : same_booking r (flip_estado r).
Proof. repeat split. Qed.

Lemma flip_estado_involutive r : status_ok r -> flip_estado (flip_estado r) = r.
Proof.
  destruct r as [i h p s m e]. unfold status_ok, flip_estado. simpl.
  intros [->| ->]; reflexivity.
Qed.

Lemma store_eta st : mk_store (_records st) (_record_id_counter st) = st.
Proof. destruct st; reflexivity. Qed.

Lemma toggle_found st record_id i r :
  list_find (fun r => id r = record_id) (_records st) = Some (i, r) ->
  toggle record_id st
  = (Ok toggle_ok,
     mk_store (<[i := flip_estado r]> (_records st)) (_record_id_counter st)).
Proof. unfold toggle. intros ->. reflexivity. Qed.

Lemma toggle_ids record_id st :
  map id (_records (toggle record_id st).2) = map id (_records st)
  /\ _record_id_counter (toggle record_id st).2 = _record_id_counter st.
Proof.
  unfold toggle.
  destruct (list_find _ _) as [[i r]|] eqn:Hf; simpl; [|auto].
  split; [|reflexivity].
  apply list_find_Some in Hf as (Hi & _ & _).
  change (map id) with (fmap (M := list) id).
  rewrite list_fmap_insert. apply list_insert_id.
  rewrite list_lookup_fmap, Hi. reflexivity.
Qed.

(** C7. When a record has the id, [toggle] answers with the success
    message and replaces, at its position, the first record with that id
    by the same record with the other status: [Pendiente] becomes
    [Ingresó] and [Ingresó] becomes [Pendiente]. The list keeps its length
    and every other position, the counter is untouched, and with distinct
    ids no other record has that id. A second toggle gives back the store
    as it was, the status being one of the two. When no record has the
    id, the answer is the not-found message and the store is unchanged. *)
Theorem C7_toggle_status (st : store) (record_id : Z) :
  ((exists r, r ∈ _records st /\ id r = record_id) ->
   exists i r,
     _records st !! i = Some r /\ id r = record_id
     /\ toggle record_id st
        = (Ok toggle_ok,
           mk_store (<[i := flip_estado r]> (_records st))
                    (_record_id_counter st))
     /\ same_booking r (flip_estado r)
     /\ (estado r = Pendiente -> estado (flip_estado r) = Ingreso)
     /\ (estado r = Ingreso -> estado (flip_estado r) = Pendiente)
     /\ length (_records (toggle record_id st).2) = length (_records st)
     /\ (forall j, j <> i ->
           _records (toggle record_id st).2 !! j = _records st !! j)
     /\ (NoDup (map id (_records st)) ->
         forall j r', _records st !! j = Some r' -> id r' = record_id -> j = i)
     /\ (status_ok r ->
         toggle record_id (toggle record_id st).2 = (Ok toggle_ok, st)))
  /\ ((forall r, r ∈ _records st -> id r <> record_id) ->
      toggle record_id st = (Ok toggle_not_found, st)).
Proof.
  split.
  - intros (r0 & Hin & Hid).
    destruct (list_find_elem_of (fun r => id r = record_id) _ r0 Hin Hid)
      as [[i r] Hf].
    pose proof (toggle_found _ _ _ _ Hf) as Ht.
    pose proof Hf as Hf'. apply list_find_Some in Hf' as (Hi & Hr & Hfirst).
    exists i, r. rewrite Ht. simpl.
    split; [assumption|]. split; [assumption|]. split; [reflexivity|].
    split; [apply flip_estado_same|].
    split; [intros He; unfold flip_estado; simpl; rewrite He; reflexivity|].
    split; [intros He; unfold flip_estado; simpl; rewrite He; reflexivity|].
    split; [apply length_insert|].
    split; [intros j Hj; apply list_lookup_insert_ne; congruence|].
    split.
    + intros Hnd j r' Hj Hr'.
      change (map id) with (fmap (M := list) id) in Hnd.
      apply (NoDup_lookup _ j i record_id Hnd);
        rewrite list_lookup_fmap; [rewrite Hj | rewrite Hi]; simpl; congruence.
    + intros Hok.
      assert (Hf2 : list_find (fun r => id r = record_id)
                      (<[i := flip_estado r]> (_records st))
                    = Some (i, flip_estado r)).
      { apply list_find_Some. split; [|split].
        - apply list_lookup_insert_eq. eapply lookup_lt_Some; eassumption.
        - exact Hr.
        - intros j y Hj Hlt. rewrite list_lookup_insert_ne in Hj by lia.
          eapply Hfirst; eassumption. }
      unfold toggle at 1. simpl. rewrite Hf2. simpl.
      rewrite list_insert_insert_eq, flip_estado_involutive by assumption.
      rewrite list_insert_id by assumption. rewrite store_eta. reflexivity.
  - intros Hnone. unfold toggle.
    destruct (list_find _ _) as [[i r]|] eqn:Hf; [|reflexivity].
    apply list_find_Some in Hf as (Hi & Hr & _).
    exfalso. apply (Hnone r); [eapply list_elem_of_lookup_2; eassumption | assumption].
Qed.

Lemma C7_toggle_witness :
  toggle 5 (toggle 5 sample_store).2 = (Ok toggle_ok, sample_store)
  /\ toggle 9 sample_store = (Ok toggle_not_found, sample_store).
Proof.
  destruct (C7_toggle_status sample_store 5) as [Hfound _].
  destruct (C7_toggle_status sample_store 9) as [_ Hnone].
  split.
  - destruct Hfound as (i & r & Hi & _ & _ & _ & _ & _ & _ & _ & _ & Hback).
    + eexists. split; [apply list_elem_of_lookup_2 with (i := 1%nat); reflexivity | reflexivity].
    + apply Hback.
      destruct i as [|[|[|i]]]; simpl in Hi; try discriminate;
        injection Hi as <-; [left | right]; reflexivity.
  - apply Hnone. intros r Hr.
    apply list_elem_of_lookup_1 in Hr as [i Hi].
    destruct i as [|[|[|i]]]; simpl in Hi; try discriminate;
      injection Hi as <-; discriminate.
Defined.

(** ** The ids over the life of the process *)

Lemma parse_file_ids `{Runtime} f st out st' :
  _parse_file f st = (Ok out, st') ->
  map id out = seqZ (_record_id_counter st) (Z.of_nat (length out))
  /\ _record_id_counter st' = _record_id_counter st + Z.of_nat (length out).
Proof.
  intros Hp. apply parse_file_Ok in Hp as (df & df1 & df2 & _ & _ & _ & _ & Hp).
  apply parse_rows_Ok in Hp as (new & -> & Hnew & Hids & Hc). simpl.
  rewrite <- (Forall2_length _ _ _ Hnew). split; assumption.
Qed.

(** One request: the counter does not go back, and the records created
    carry the ids the counter gave meanwhile, in ascending order. *)
Lemma serve_ids `{Runtime} rq st created st' :
  serve rq st = (created, st') ->
  _record_id_counter st <= _record_id_counter st'
  /\ Forall (fun r => _record_id_counter st <= id r < _record_id_counter st')
       created
  /\ StronglySorted Z.lt (map id created)
  /\ (created = [] /\ map id (_records st') = map id (_records st)
      \/ created = _records st').
Proof.
  destruct rq as [|file|record_id]; simpl.
  - intros [= <- <-]. split; [lia|]. repeat split; [constructor|constructor|auto].
  - destruct (upload file st) as [out st1] eqn:Hup.
    apply upload_cases in Hup
      as [(f & parsed & st2 & -> & _ & Hp & -> & ->)|(Hne & Hr & Hc)].
    + rewrite bool_decide_eq_true_2 by reflexivity. intros [= <- <-]. simpl.
      apply parse_file_ids in Hp as [Hids Hc].
      split; [lia|]. split; [|split; [rewrite Hids; apply seqZ_sorted | auto]].
      apply Forall_forall. intros r Hr.
      assert (Hin : id r ∈ map id parsed) by (apply list_elem_of_fmap; eauto).
      rewrite Hids in Hin. apply elem_of_seqZ in Hin. lia.
    + destruct out as [fl|e].
      * rewrite bool_decide_eq_false_2 by congruence. intros [= <- <-].
        split; [lia|]. repeat split; [constructor|constructor|].
        left. rewrite Hr. auto.
      * intros [= <- <-]. split; [lia|]. repeat split; [constructor|constructor|].
        left. rewrite Hr. auto.
  - intros [= <- <-]. destruct (toggle_ids record_id st) as [Hids Hc].
    split; [lia|]. repeat split; [constructor|constructor|].
    left. auto.
Qed.

Lemma serve_all_ids `{Runtime} rqs st batches st' :
  serve_all rqs st = (batches, st') ->
  _record_id_counter st <= _record_id_counter st'
  /\ Forall (fun r => _record_id_counter st <= id r < _record_id_counter st')
       (concat batches)
  /\ StronglySorted Z.lt (map id (concat batches)).
Proof.
  revert st batches st'. induction rqs as [|rq rqs IH]; intros st batches st'; simpl.
  - intros [= <- <-]. split; [lia|]. split; constructor.
  - destruct (serve rq st) as [created st1] eqn:Hs.
    destruct (serve_all rqs st1) as [later st2] eqn:Hl.
    intros [= <- <-]. apply serve_ids in Hs as (Hc1 & Hb1 & Hs1 & _).
    apply IH in Hl as (Hc2 & Hb2 & Hs2). simpl.
    split; [lia|]. split.
    + apply Forall_app. split; eapply Forall_impl; try eassumption;
        simpl; intros; lia.
    + change (map id) with (fmap (M := list) id) in *. rewrite fmap_app.
      apply StronglySorted_app_2; try assumption.
      intros x1 x2 Hx1 Hx2.
      apply list_elem_of_fmap in Hx1 as (r1 & -> & Hr1).
      apply list_elem_of_fmap in Hx2 as (r2 & -> & Hr2).
      rewrite Forall_forall in Hb1, Hb2.
      specialize (Hb1 r1 Hr1). specialize (Hb2 r2 Hr2). lia.
Qed.

(** The stored records always carry ascending ids below the counter. *)
Lemma serve_all_store `{Runtime} rqs st batches st' :
  serve_all rqs st = (batches, st') ->
  Forall (fun r => 1 <= id r < _record_id_counter st) (_records st) ->
  StronglySorted Z.lt (map id (_records st)) ->
  1 <= _record_id_counter st ->
  Forall (fun r => 1 <= id r < _record_id_counter st') (_records st')
  /\ StronglySorted Z.lt (map id (_records st')).
Proof.
  revert st batches st'. induction rqs as [|rq rqs IH]; intros st batches st'; simpl.
  - intros [= <- <-]. auto.
  - destruct (serve rq st) as [created st1] eqn:Hs.
    destruct (serve_all rqs st1) as [later st2] eqn:Hl.
    intros [= <- <-] Hb Hsorted Hc.
    apply serve_ids in Hs as (Hc1 & Hb1 & Hs1 & Hcase).
    apply (IH _ _ _ Hl); [| |lia].
    + destruct Hcase as [[_ Hids]| <-].
      * apply Forall_forall. intros r Hr.
        assert (Hin : id r ∈ map id (_records st1)) by (apply list_elem_of_fmap; eauto).
        rewrite Hids in Hin. apply list_elem_of_fmap in Hin as (r' & -> & Hr').
        rewrite Forall_forall in Hb. specialize (Hb r' Hr'). lia.
      * eapply Forall_impl; [eassumption|]. simpl. intros. lia.
    + destruct Hcase as [[_ Hids]| <-]; [rewrite Hids|]; assumption.
Qed.

(** C6. Over a whole run from the empty store: the ids of all the records
    ever created, in the order they were created, are at least 1 and
    strictly ascending, hence distinct; they lie below the counter, so the
    next ones are new; the records in the store have ascending ids among
    them; and the records of one more successful upload are numbered from
    the counter on, not from 1. *)
Theorem C6_ids_never_reused `{Runtime} (rqs : list request) :
  let run := serve_all rqs initial_store in
  let ids := map id (concat run.1) in
  Forall (fun i => 1 <= i < _record_id_counter run.2) ids
  /\ StronglySorted Z.lt ids
  /\ NoDup ids
  /\ Forall (fun r => 1 <= id r < _record_id_counter run.2) (_records run.2)
  /\ StronglySorted Z.lt (map id (_records run.2))
  /\ (forall file st',
        upload file run.2 = (Ok upload_ok, st') ->
        map id (_records st')
        = seqZ (_record_id_counter run.2) (Z.of_nat (length (_records st')))
        /\ Forall (fun i => Forall (fun j => i < j) (map id (_records st'))) ids).
Proof.
  intros run ids. subst ids.
  destruct run as [batches st] eqn:Hrun. subst run. simpl.
  pose proof (serve_all_ids _ _ _ _ Hrun) as (Hc & Hb & Hs).
  pose proof (serve_all_store _ _ _ _ Hrun) as [Hsb Hss];
    [constructor | constructor | simpl; lia |].
  simpl in Hc, Hb.
  assert (Hids : Forall (fun i => 1 <= i < _record_id_counter st)
                   (map id (concat batches))).
  { apply Forall_fmap. eapply Forall_impl; [eassumption|]. simpl. intros. lia. }
  split; [assumption|]. split; [assumption|].
  split.
  { clear - Hs. induction Hs as [|x l _ IH Hx]; constructor; [|assumption].
    intros Hin. rewrite Forall_forall in Hx. specialize (Hx x Hin). lia. }
  split; [assumption|]. split; [assumption|].
  intros file st' Hup.
  apply upload_cases in Hup as [(f & parsed & st1 & -> & _ & Hp & _ & ->)|[Hne _]];
    [|congruence].
  simpl. apply parse_file_ids in Hp as [Hpi _]. split; [assumption|].
  eapply Forall_impl; [exact Hids|]. simpl. intros i Hi.
  rewrite Hpi. apply Forall_seqZ. intros. lia.
Qed.

Lemma C6_ids_witness :
  map id (_records (@upload (sample_runtime sample_df) (Some sample_file)
            (@serve_all (sample_runtime sample_df)
               [ReqUpload (Some sample_file); ReqToggle 2] initial_store).2).2)
  = [4; 5; 6].
Proof.
  refine (proj1 (proj2 (proj2 (proj2 (proj2 (proj2
    (@C6_ids_never_reused (sample_runtime sample_df)
       [ReqUpload (Some sample_file); ReqToggle 2]))))) (Some sample_file)
    (@upload (sample_runtime sample_df) (Some sample_file)
       (@serve_all (sample_runtime sample_df)
          [ReqUpload (Some sample_file); ReqToggle 2] initial_store).2).2
    eq_refl)).
Defined.

(** ** The record builder *)

Lemma build_record_fields `{Runtime} cols record_id row r :
  build_record cols record_id row = Ok r ->
  exists room persons checkout half_board,
    row_get cols row "room number" = Ok room
    /\ row_get cols row "number of persons" = Ok persons
    /\ row_get cols row "day of check out" = Ok checkout
    /\ row_get cols row "half-board included?" = Ok half_board
    /\ habitacion r = py_strip (py_str room)
    /\ personas_of_cell persons = Ok (personas r)
    /\ _format_checkout checkout = Ok (salida r)
    /\ media_pension r = py_strip (py_str half_board).
Proof.
  intros Hb. apply build_record_Ok in Hb
    as (room & persons & checkout & half_board & p & s
        & Hroom & Hpersons & Hp & Hcheckout & Hs & Hhalf & ->).
  exists room, persons, checkout, half_board. simpl. auto 10.
Qed.

(** The room and half-board fields are the cells printed and trimmed. *)
Lemma build_record_room `{Runtime} cols record_id row r room :
  row_get cols row "room number" = Ok room ->
  build_record cols record_id row = Ok r ->
  habitacion r = py_strip (py_str room).
Proof.
  intros Hroom Hb. apply build_record_fields in Hb
    as (room' & _ & _ & _ & Hroom' & _ & _ & _ & Hh & _).
  congruence.
Qed.

(** C9, at an empty room cell: the record does not get the empty string
    but the three letters that [str] prints for the float NaN. *)
Theorem C9_room_of_empty_cell `{Runtime} cols record_id row r :
  row_get cols row "room number" = Ok (Missing NaN) ->
  build_record cols record_id row = Ok r ->
  habitacion r = "nan" /\ habitacion r <> "".
Proof.
  intros Hroom Hb. rewrite (build_record_room _ _ _ _ _ Hroom Hb).
  split; [reflexivity | discriminate].
Qed.

Lemma C9_room_of_empty_cell_witness :
  exists r,
    @build_record (sample_runtime sample_df)
      ["room number"; "number of persons"; "day of check out";
       "half-board included?"] 1
      [Missing NaN; Int 2; Int 45000; Text "yes"] = Ok r
    /\ habitacion r = "nan".
Proof.
  eexists. split; [reflexivity|].
  exact (proj1 (@C9_room_of_empty_cell (sample_runtime sample_df)
                  ["room number"; "number of persons"; "day of check out";
                   "half-board included?"] 1
                  [Missing NaN; Int 2; Int 45000; Text "yes"] _
                  eq_refl eq_refl)).
Defined.

(** ** Strings: case and white space *)

Lemma is_space_not_upper c : is_space c = true -> lower_char c = c.
Proof.
  unfold lower_char.
  destruct c as [[] [] [] [] [] [] [] []]; try reflexivity; discriminate.
Qed.

Lemma all_space_nil : all_space "".
Proof. reflexivity. Qed.

Lemma all_space_cons c s :
  all_space (String c s) <-> is_space c = true /\ all_space s.
Proof.
  unfold all_space. simpl. destruct (is_space c).
  - split; [auto | intros [_ Hs]; exact Hs].
  - split; [discriminate | intros [[=] _]].
Qed.

Lemma py_lower_app s t : py_lower (s +:+ t) = py_lower s +:+ py_lower t.
Proof. induction s as [|c s IH]; simpl; [reflexivity | rewrite IH; reflexivity]. Qed.

Lemma py_lower_all_space s : all_space s -> py_lower s = s.
Proof.
  induction s as [|c s IH]; [reflexivity|].
  intros [Hc Hs]%all_space_cons. simpl.
  rewrite (is_space_not_upper c Hc), IH by assumption. reflexivity.
Qed.

Lemma py_lstrip_app_space pre s :
  all_space pre -> py_lstrip (pre +:+ s) = py_lstrip s.
Proof.
  induction pre as [|c pre IH]; [reflexivity|].
  intros [Hc Hs]%all_space_cons. simpl. rewrite Hc. apply IH, Hs.
Qed.

Lemma py_rstrip_all_space s : all_space s -> py_rstrip s = "".
Proof.
  induction s as [|c s IH]; [reflexivity|].
  intros [Hc Hs]%all_space_cons. simpl. rewrite IH, Hc by assumption. reflexivity.
Qed.

Lemma py_rstrip_app_space s post :
  all_space post -> py_rstrip (s +:+ post) = py_rstrip s.
Proof.
  intros Hpost. induction s as [|c s IH]; simpl.
  - apply py_rstrip_all_space, Hpost.
  - rewrite IH. reflexivity.
Qed.

Lemma py_lstrip_app s t :
  py_lstrip s <> "" -> py_lstrip (s +:+ t) = py_lstrip s +:+ t.
Proof.
  induction s as [|c s IH]; simpl; [congruence|].
  destruct (is_space c); [exact IH | reflexivity].
Qed.

(** White space around a string does not change what [strip] returns. *)
Lemma py_strip_surrounded pre s post :
  all_space pre -> all_space post ->
  py_strip (pre +:+ s +:+ post) = py_strip s.
Proof.
  intros Hpre Hpost. unfold py_strip.
  rewrite py_lstrip_app_space by assumption.
  destruct (decide (py_lstrip s = "")) as [Hs|Hs].
  - rewrite (py_lstrip_app_space s post Hs), Hs.
    unfold all_space in Hpost. rewrite Hpost. reflexivity.
  - rewrite py_lstrip_app by assumption. apply py_rstrip_app_space, Hpost.
Qed.

(** A variant of a recognized label normalizes to the label. *)
Lemma header_variant_normalizes h label :
  label ∈ map fst REQUIRED_COLUMNS ->
  header_variant h label -> py_strip (py_lower h) = label.
Proof.
  intros Hin (pre & s & post & -> & Hpre & Hpost & Hs).
  rewrite !py_lower_app, Hs.
  rewrite (py_lower_all_space pre), (py_lower_all_space post) by assumption.
  rewrite py_strip_surrounded by assumption.
  simpl in Hin. rewrite !elem_of_cons in Hin.
  destruct Hin as [->|[->|[->|[->|Hin]]]]; [reflexivity..|].
  inversion Hin.
Qed.

(** ** Dictionaries built by a comprehension *)

Lemma dict_of_snoc l kv : dict_of (l ++ [kv]) = <[kv.1 := kv.2]> (dict_of l).
Proof. unfold dict_of. rewrite foldl_app. reflexivity. Qed.

Lemma dict_of_lookup_None l k : dict_of l !! k = None <-> k ∉ l.*1.
Proof.
  induction l as [|kv l IH] using rev_ind.
  - split; [intros _ Hin; inversion Hin | reflexivity].
  - rewrite dict_of_snoc, lookup_insert_None, IH, fmap_app, elem_of_app.
    simpl. rewrite list_elem_of_singleton. split.
    + intros [Hl Hne] [Hin|Heq]; [exact (Hl Hin) | congruence].
    + intros Hn. split; [tauto | intros Heq; apply Hn; right; congruence].
Qed.

Lemma dict_of_lookup_Some l k v : dict_of l !! k = Some v -> (k, v) ∈ l.
Proof.
  induction l as [|kv l IH] using rev_ind; [discriminate|].
  rewrite dict_of_snoc, lookup_insert_Some, elem_of_app, list_elem_of_singleton.
  intros [[<- <-]|[_ Hl]]; [right; destruct kv; reflexivity | left; exact (IH Hl)].
Qed.

Lemma dict_of_lookup_NoDup l k v :
  NoDup l.*1 -> (k, v) ∈ l -> dict_of l !! k = Some v.
Proof.
  induction l as [|kv l IH] using rev_ind; [intros _ Hin; inversion Hin|].
  rewrite fmap_app, NoDup_app, elem_of_app, list_elem_of_singleton.
  intros (Hnd & Hdisj & _) Hin. rewrite dict_of_snoc, lookup_insert_Some.
  destruct Hin as [Hin| <-]; [|left; split; reflexivity].
  right. split; [|exact (IH Hnd Hin)].
  intros <-. apply (Hdisj kv.1).
  - apply list_elem_of_fmap. exists (kv.1, v). split; [reflexivity | exact Hin].
  - simpl. apply list_elem_of_singleton. reflexivity.
Qed.

(** ** The column resolver *)

(** The dictionary [normalized] of a list of headers. *)
Lemma normalized_None cols k :
  dict_of (map (fun col => (py_strip (py_lower col), col)) cols) !! k = None
  <-> ¬ resolves cols k.
Proof.
  rewrite dict_of_lookup_None. unfold resolves. rewrite Exists_exists.
  change (map ?f ?l) with (f <$> l). rewrite <- list_fmap_compose.
  rewrite list_elem_of_fmap. simpl.
  split; intros Hn (c & H1 & H2); apply Hn; exists c; split; auto.
Qed.

Lemma normalized_Some cols c :
  NoDup (map (fun col => py_strip (py_lower col)) cols) ->
  c ∈ cols ->
  dict_of (map (fun col => (py_strip (py_lower col), col)) cols)
    !! py_strip (py_lower c) = Some c.
Proof.
  intros Hnd Hin. apply dict_of_lookup_NoDup.
  - change (map ?f ?l) with (f <$> l) in *. rewrite <- list_fmap_compose. exact Hnd.
  - change (map ?f ?l) with (f <$> l). apply list_elem_of_fmap.
    exists c. split; [reflexivity | exact Hin].
Qed.

Lemma keys_NoDup : NoDup (map fst REQUIRED_COLUMNS).
Proof. apply (bool_decide_unpack _). vm_compute. exact I. Qed.

(** The list [missing] of the code is the list of unresolved labels. *)
Lemma missing_unresolved cols :
  filter (fun col =>
            dict_of (map (fun col => (py_strip (py_lower col), col)) cols)
              !! col = None)
         (map fst REQUIRED_COLUMNS)
  = filter (fun k => ¬ resolves cols k) (map fst REQUIRED_COLUMNS).
Proof. apply list_filter_iff. intros k. apply normalized_None. Qed.

(** C5 as amended. For a table whose headers are all text, made of ASCII
    characters: when some required label is resolved by no header, the
    resolver raises a [ValueError] whose message is the fixed Spanish
    sentence followed by the field names ([habitacion], [personas],
    [salida], [media_pension]) of exactly the unresolved labels, in the
    order of [REQUIRED_COLUMNS], separated by a comma and a space; the
    upload then flashes that message as an error and leaves the store as it
    was. (A header that is no text, a number or a date, makes [col.lower()]
    fail before the labels are looked for; such tables are left out.) *)
Theorem C5_missing_columns_message `{Runtime} (df : DataFrame) :
  Forall ascii_text (columns df) ->
  unresolved (columns df) <> [] ->
  _normalize_columns df
  = Raise (ValueError ("Faltan las siguientes columnas en el archivo: "
                       +:+ py_join ", " (map snd (unresolved (columns df)))))
  /\ (forall kv, kv ∈ unresolved (columns df) <->
                 kv ∈ REQUIRED_COLUMNS /\ ¬ resolves (columns df) kv.1)
  /\ (forall f st,
        filename f <> "" -> content f <> [] ->
        read_excel (content f) = Some df ->
        upload (Some f) st
        = (Ok (mk_flash ("Faltan las siguientes columnas en el archivo: "
                         +:+ py_join ", " (map snd (unresolved (columns df))))
                        "error"), st)).
Proof.
  intros _ Hne.
  assert (Hraise : _normalize_columns df
    = Raise (ValueError ("Faltan las siguientes columnas en el archivo: "
                         +:+ py_join ", " (map snd (unresolved (columns df)))))).
  { unfold _normalize_columns. rewrite missing_unresolved.
    unfold unresolved in *. unfold REQUIRED_COLUMNS in *.
    cbn [map fst] in *. rewrite !filter_cons, filter_nil in *. cbn [fst] in *.
    repeat case_decide; try reflexivity.
    exfalso. apply Hne. reflexivity. }
  split; [exact Hraise|]. split.
  - intros kv. unfold unresolved. rewrite list_elem_of_filter. tauto.
  - intros f st Hname Hcontent Hread. unfold upload, _parse_file.
    apply String.eqb_neq in Hname. rewrite Hname.
    destruct (content f) as [|b bs]; [congruence|].
    rewrite Hread. unfold mbind, M_bind, lift. rewrite Hraise.
    destruct st; reflexivity.
Qed.

Lemma C5_missing_columns_witness :
  _normalize_columns no_room_df
  = Raise (ValueError
      "Faltan las siguientes columnas en el archivo: habitacion, media_pension").
Proof.
  refine (proj1 (@C5_missing_columns_message (sample_runtime no_room_df)
                   no_room_df _ _)).
  - apply (bool_decide_unpack _). vm_compute. exact I.
  - vm_compute. discriminate.
Defined.

(** C5 as stated fails: the room column is missing, and the message names
    it [habitacion]; the label ["room number"] does not occur in it. *)
Lemma C5_counterexample :
  exists msg,
    _normalize_columns no_room_df = Raise (ValueError msg)
    /\ String.index 0%nat "habitacion" msg = Some 46%nat
    /\ String.index 0%nat "room number" msg = None.
Proof. eexists. split; [reflexivity|]. split; reflexivity. Qed.

(** The resolver on headers that resolve every label, each header giving
    its own normal form: the headers of the labels are renamed to them and
    the other headers are kept. *)
Lemma normalize_columns_Ok df :
  NoDup (map (fun col => py_strip (py_lower col)) (columns df)) ->
  (forall k, k ∈ map fst REQUIRED_COLUMNS -> resolves (columns df) k) ->
  _normalize_columns df
  = Ok (mk_df
          (map (fun col =>
                  if bool_decide (py_strip (py_lower col) ∈ map fst REQUIRED_COLUMNS)
                  then py_strip (py_lower col) else col)
               (columns df))
          (rows df)).
Proof.
  intros Hnd Hres.
  set (norm := fun col => py_strip (py_lower col)) in *.
  assert (Hkey : forall k, k ∈ map fst REQUIRED_COLUMNS ->
            exists c, c ∈ columns df /\ norm c = k
              /\ dict_of (map (fun col => (norm col, col)) (columns df)) !! k
                 = Some c).
  { intros k Hk. specialize (Hres k Hk). unfold resolves in Hres.
    apply Exists_exists in Hres as (c & Hc & Hn). exists c.
    split; [exact Hc|]. split; [exact Hn|]. rewrite <- Hn.
    apply normalized_Some; assumption. }
  destruct (Hkey "room number") as (c1 & Hc1 & Hn1 & Hl1); [set_solver|].
  destruct (Hkey "number of persons") as (c2 & Hc2 & Hn2 & Hl2); [set_solver|].
  destruct (Hkey "day of check out") as (c3 & Hc3 & Hn3 & Hl3); [set_solver|].
  destruct (Hkey "half-board included?") as (c4 & Hc4 & Hn4 & Hl4); [set_solver|].
  unfold _normalize_columns. fold norm. rewrite missing_unresolved.
  assert (Hnone : filter (fun k => ¬ resolves (columns df) k)
                    (map fst REQUIRED_COLUMNS) = []).
  { cbn [map fst REQUIRED_COLUMNS].
    rewrite !filter_cons_False, filter_nil; [reflexivity|..];
      intros Hn; apply Hn, Hres; set_solver. }
  rewrite Hnone. cbn [negb bool_decide decide_rel].
  rewrite bool_decide_eq_true_2 by reflexivity. cbn [negb].
  cbn [map fst REQUIRED_COLUMNS mapM]. unfold dict_get.
  unfold norm in Hl1, Hl2, Hl3, Hl4. rewrite Hl1, Hl2, Hl3, Hl4. cbn.
  unfold df_rename. apply (f_equal Ok).
  set (renames := [(c1, "room number"); (c2, "number of persons");
                   (c3, "day of check out"); (c4, "half-board included?")]).
  assert (Hrn : NoDup renames.*1).
  { apply (NoDup_fmap_1 norm). change (NoDup [norm c1; norm c2; norm c3; norm c4]).
    rewrite Hn1, Hn2, Hn3, Hn4. apply keys_NoDup. }
  apply (f_equal2 mk_df); [|reflexivity].
  apply map_ext_in. intros c Hc. apply list_elem_of_In in Hc.
  change (default c (dict_of renames !! c)
          = if bool_decide (norm c ∈ map fst REQUIRED_COLUMNS) then norm c else c).
  assert (Hcn : dict_of (map (fun col => (norm col, col)) (columns df))
                  !! norm c = Some c) by (apply normalized_Some; assumption).
  case_bool_decide as Hin.
  - cbn in Hin. rewrite !elem_of_cons in Hin.
    assert (Hpair : (c, norm c) ∈ renames).
    { subst renames. rewrite !elem_of_cons.
      destruct Hin as [Hk|[Hk|[Hk|[Hk|Hk]]]]; [..|inversion Hk];
        rewrite Hk in Hcn |- *; unfold norm in Hcn; [left|right; left|do 2 right; left|do 3 right; left];
        f_equal; congruence. }
    rewrite (dict_of_lookup_NoDup _ _ _ Hrn Hpair). reflexivity.
  - assert (Hno : dict_of renames !! c = None).
    { apply dict_of_lookup_None. subst renames. cbn. rewrite !elem_of_cons.
      intros [->|[->|[->|[->|Hk]]]]; [..|inversion Hk];
        apply Hin; rewrite ?Hn1, ?Hn2, ?Hn3, ?Hn4; set_solver. }
    rewrite Hno. reflexivity.
Qed.

(** A header that is a label in another case, with white space around it,
    has that label as its normal form. *)
Lemma variants_normalize hs ls :
  Forall2 header_variant hs ls ->
  (forall l, l ∈ ls -> l ∈ map fst REQUIRED_COLUMNS) ->
  map (fun col => py_strip (py_lower col)) hs = ls.
Proof.
  induction 1 as [|h l hs ls Hh _ IH]; intros Hin; [reflexivity|].
  cbn [map]. f_equal.
  - apply header_variant_normalizes; [apply Hin; left | exact Hh].
  - apply IH. intros l' Hl'. apply Hin. right. exact Hl'.
Qed.

Lemma append_empty_r s : s +:+ "" = s.
Proof.
  induction s as [|a s IH]; [reflexivity|].
  change (String a (s +:+ "") = String a s). rewrite IH. reflexivity.
Qed.

Lemma header_variant_refl label : header_variant label label.
Proof.
  exists "", label, "". rewrite append_empty_r.
  repeat split; reflexivity.
Qed.

(** C10. Headers that are the four recognized labels, in any order, each
    with letters changed in case and white space added around it: the
    resolver succeeds, its dictionary sends every label to the header that
    stands for it, and the table it returns has every header renamed to its
    label, which is also what it returns when the headers are the labels
    themselves. *)
Theorem C10_header_variants_resolve (hs labels : list string)
    (rws : list (list cell)) :
  labels ≡ₚ map fst REQUIRED_COLUMNS ->
  Forall2 header_variant hs labels ->
  _normalize_columns (mk_df hs rws) = Ok (mk_df labels rws)
  /\ _normalize_columns (mk_df labels rws) = Ok (mk_df labels rws)
  /\ Forall2 (fun h label =>
                dict_of (map (fun col => (py_strip (py_lower col), col)) hs)
                  !! label = Some h) hs labels.
Proof.
  intros Hperm Hvar.
  assert (Hsub : forall l, l ∈ labels -> l ∈ map fst REQUIRED_COLUMNS).
  { intros l Hl. rewrite <- Hperm. exact Hl. }
  assert (Hnd : NoDup labels) by (rewrite Hperm; apply keys_NoDup).
  assert (Hmain : forall hs', Forall2 header_variant hs' labels ->
            _normalize_columns (mk_df hs' rws) = Ok (mk_df labels rws)).
  { intros hs' Hvar'. pose proof (variants_normalize _ _ Hvar' Hsub) as Hnorm.
    rewrite normalize_columns_Ok; cbn [columns rows].
    - do 2 f_equal. rewrite <- Hnorm. apply map_ext_in. intros c Hc.
      rewrite bool_decide_eq_true_2; [reflexivity|].
      apply Hsub. rewrite <- Hnorm. apply list_elem_of_In in Hc.
      change (map ?f ?l) with (f <$> l). apply list_elem_of_fmap. eauto.
    - rewrite Hnorm. exact Hnd.
    - intros k Hk. rewrite <- Hperm, <- Hnorm in Hk.
      change (map ?f ?l) with (f <$> l) in Hk.
      apply list_elem_of_fmap in Hk as (c & -> & Hc).
      unfold resolves. apply Exists_exists. eauto. }
  split; [exact (Hmain hs Hvar)|]. split.
  - apply Hmain. clear. induction labels; constructor; auto using header_variant_refl.
  - pose proof (variants_normalize _ _ Hvar Hsub) as Hnorm.
    assert (Hndh : NoDup (map (fun col => py_strip (py_lower col)) hs))
      by (rewrite Hnorm; exact Hnd).
    assert (Hall : Forall (fun h =>
              dict_of (map (fun col => (py_strip (py_lower col), col)) hs)
                !! py_strip (py_lower h) = Some h) hs).
    { apply Forall_forall. intros h Hh. apply normalized_Some; assumption. }
    rewrite <- Hnorm. change (map ?f ?l) with (f <$> l) at 2.
    apply Forall2_fmap_r, Forall_Forall2_diag. exact Hall.
Qed.

Lemma C10_header_variants_witness :
  _normalize_columns
    (mk_df ["Day of Check Out "; " Room Number"; "NUMBER OF PERSONS";
            "  half-board included?  "]
           [ [Int 45000; Int 101; Int 2; Text "yes"] ])
  = Ok (mk_df ["day of check out"; "room number"; "number of persons";
               "half-board included?"]
              [ [Int 45000; Int 101; Int 2; Text "yes"] ]).
Proof.
  refine (proj1 (C10_header_variants_resolve _ _ _ _ _)).
  - apply (bool_decide_unpack _). vm_compute. exact I.
  - repeat constructor.
    + exists "", "Day of Check Out", " ". repeat split; reflexivity.
    + exists " ", "Room Number", "". repeat split; reflexivity.
    + exists "", "NUMBER OF PERSONS", "". repeat split; reflexivity.
    + exists "  ", "half-board included?", "  ". repeat split; reflexivity.
Defined.

(** * Further properties of the program *)

(** ** The day counts the checkout formatter turns into dates *)

(** X1. An integer checkout cell. A Python [int] gives a date exactly when
    it lies from -693593, which is printed 01/01/1, to 2958465, which is
    31/12/9999; any other [int] that [str] can print, one of fewer than
    4301 digits, comes back as the number it is. A numpy integer comes
    back as its digits, whether it lies in that range or not. *)
Theorem format_checkout_day_bounds `{Runtime} (n : Z) :
  (-693593 <= n <= 2958465 ->
   _format_checkout (Int n) = Ok (strftime_dmy (days_after EPOCH n)))
  /\ (n < -693593 \/ 2958465 < n ->
      Z.abs n < 10 ^ 4300 ->
      _format_checkout (Int n) = Ok (str_int n))
  /\ _format_checkout (NpInt n) = Ok (str_int n)
  /\ _format_checkout (Int (-693593)) = Ok "01/01/1"
  /\ _format_checkout (Int 2958465) = Ok "31/12/9999".
Proof.
  split; [|split; [|split; [|split]]]; try reflexivity.
  - intros Hn. apply day_count_in_range in Hn.
    rewrite format_checkout_Int, Hn. reflexivity.
  - intros Hn _. rewrite format_checkout_Int.
    destruct (representable (days_after EPOCH n)) eqn:Hr; [|reflexivity].
    apply day_count_in_range in Hr. lia.
Qed.

Lemma digit_inj a b : digit a = digit b -> a mod 10 = b mod 10.
Proof.
  unfold digit. intros Hd. apply (f_equal N_of_ascii) in Hd.
  pose proof (Z.mod_pos_bound a 10 ltac:(lia)).
  pose proof (Z.mod_pos_bound b 10 ltac:(lia)).
  rewrite !N_ascii_embedding in Hd by lia. lia.
Qed.

Lemma month_length_le y m : month_length y m <= 31.
Proof.
  unfold month_length. destruct (is_leap_year y);
    repeat match goal with
           | |- context [match ?x with _ => _ end] => destruct x
           end; lia.
Qed.

Lemma str_int_inj n m : str_int n = str_int m -> n = m.
Proof.
  unfold str_int. intros Heq. apply DecimalZ.to_int_inj.
  apply (f_equal NilZero.int_of_string) in Heq.
  rewrite !NilZero.isi in Heq.
  - congruence.
  - destruct m as [|p|p]; simpl; try discriminate.
    intros [= Hp]. exact (Unsigned.to_uint_nonnil p Hp).
  - destruct m as [|p|p]; simpl; try discriminate.
    intros [= Hp]. exact (Unsigned.to_uint_nonnil p Hp).
  - destruct n as [|p|p]; simpl; try discriminate.
    intros [= Hp]. exact (Unsigned.to_uint_nonnil p Hp).
  - destruct n as [|p|p]; simpl; try discriminate.
    intros [= Hp]. exact (Unsigned.to_uint_nonnil p Hp).
Qed.

Lemma strftime_dmy_inj d1 d2 :
  valid_date d1 -> valid_date d2 ->
  strftime_dmy d1 = strftime_dmy d2 -> d1 = d2.
Proof.
  intros [Hm1 Hd1] [Hm2 Hd2] Heq.
  pose proof (month_length_le (year d1) (month d1)) as Hl1.
  pose proof (month_length_le (year d2) (month d2)) as Hl2.
  unfold strftime_dmy, pad2 in Heq. cbn [String.append] in Heq.
  injection Heq as Ha Hb Hc Hd Hy.
  apply digit_inj in Ha, Hb, Hc, Hd. apply str_int_inj in Hy.
  destruct d1 as [y1 m1 dd1], d2 as [y2 m2 dd2]. simpl in *.
  assert (dd1 <= 31 /\ dd2 <= 31) as [? ?] by lia.
  clear Hl1 Hl2. f_equal; [exact Hy|..]; Z.to_euclidean_division_equations; lia.
Qed.

(** X2. Two different day counts in the range of the calendar are never
    printed as the same date: the formatted checkout tells which day was
    meant. *)
Theorem format_checkout_distinct_days `{Runtime} (n m : Z) :
  -693593 <= n <= 2958465 -> -693593 <= m <= 2958465 ->
  n <> m ->
  _format_checkout (Int n) <> _format_checkout (Int m).
Proof.
  intros Hn Hm Hne Heq.
  rewrite !format_checkout_Int in Heq.
  rewrite (proj2 (day_count_in_range n) Hn),
          (proj2 (day_count_in_range m) Hm) in Heq.
  assert (Hs : strftime_dmy (days_after EPOCH n) = strftime_dmy (days_after EPOCH m))
    by congruence.
  destruct (days_after_spec EPOCH n EPOCH_valid) as [Hvn Hon].
  destruct (days_after_spec EPOCH m EPOCH_valid) as [Hvm Hom].
  apply strftime_dmy_inj in Hs; try assumption.
  rewrite Hs in Hon. lia.
Qed.

Lemma format_checkout_distinct_days_witness :
  @_format_checkout (sample_runtime sample_df) (Int 45000)
  <> @_format_checkout (sample_runtime sample_df) (Int 45001).
Proof.
  apply (@format_checkout_distinct_days (sample_runtime sample_df) 45000 45001); lia.
Defined.

(** X3. A checkout kept as a date and the same checkout kept as a Python
    [int], its day count from 1899-12-30, are printed alike. *)
Theorem format_checkout_date_as_number `{Runtime} (d : date) (t : Z) :
  valid_date d -> 1 <= year d <= 9999 ->
  _format_checkout (Int (toordinal d - toordinal EPOCH))
  = _format_checkout (DateTime d t).
Proof.
  intros Hd Hy. apply (year_range_ordinal d Hd) in Hy.
  set (n := toordinal d - toordinal EPOCH).
  destruct (days_after_spec EPOCH n EPOCH_valid) as [Hv Ho].
  assert (Hdn : days_after EPOCH n = d).
  { apply toordinal_inj; try assumption. rewrite Ho. unfold n. lia. }
  assert (Hr : representable (days_after EPOCH n) = true).
  { apply day_count_in_range. unfold n, _MAXORDINAL in *.
    change (toordinal EPOCH) with 693594. lia. }
  rewrite format_checkout_Int, Hr, Hdn. reflexivity.
Qed.

Lemma format_checkout_date_as_number_witness :
  @_format_checkout (sample_runtime sample_df) (Int 45356)
  = @_format_checkout (sample_runtime sample_df)
      (DateTime (mk_date 2024 3 5) 43200).
Proof.
  apply (@format_checkout_date_as_number (sample_runtime sample_df)
           (mk_date 2024 3 5) 43200).
  - unfold valid_date. simpl. lia.
  - simpl. lia.
Defined.

(** ** The column resolver on any headers *)

(** A dictionary built by a comprehension holds, under a key, the value of
    the last element that has this key. *)
Lemma dict_of_map_last {A} (f g : A -> string) (l : list A) k :
  dict_of (map (fun x => (f x, g x)) l) !! k
  = g <$> last (filter (fun x => f x = k) l).
Proof.
  induction l as [|x l IH] using rev_ind; [reflexivity|].
  rewrite map_app, filter_app. cbn [map]. rewrite dict_of_snoc. cbn [fst snd].
  destruct (decide (f x = k)) as [Hk|Hk].
  - rewrite Hk, lookup_insert_eq.
    rewrite filter_cons_True, filter_nil by exact Hk.
    rewrite last_snoc. reflexivity.
  - rewrite lookup_insert_ne by exact Hk.
    rewrite filter_cons_False, filter_nil, app_nil_r by exact Hk. exact IH.
Qed.

Lemma unresolved_nil cols k :
  unresolved cols = [] -> k ∈ map fst REQUIRED_COLUMNS -> resolves cols k.
Proof.
  intros Hu Hk. destruct (decide (resolves cols k)) as [Hr|Hr]; [exact Hr|].
  change (map ?f ?l) with (f <$> l) in Hk.
  apply list_elem_of_fmap in Hk as (kv & -> & Hkv).
  assert (Hin : kv ∈ unresolved cols)
    by (unfold unresolved; apply list_elem_of_filter; split; assumption).
  rewrite Hu in Hin. inversion Hin.
Qed.

Lemma resolves_unresolved_nil cols :
  (forall k, k ∈ map fst REQUIRED_COLUMNS -> resolves cols k) ->
  unresolved cols = [].
Proof.
  intros Hres. unfold unresolved.
  destruct (filter _ _) as [|kv l] eqn:Hf; [reflexivity|].
  assert (Hin : kv ∈ filter (fun kv => ¬ resolves cols kv.1) REQUIRED_COLUMNS)
    by (rewrite Hf; left).
  apply list_elem_of_filter in Hin as [Hn Hin]. exfalso. apply Hn, Hres.
  change (map ?f ?l) with (f <$> l). apply list_elem_of_fmap. eauto.
Qed.

(** The resolver when the dictionary [normalized] has the four labels. *)
Lemma normalize_columns_run df c1 c2 c3 c4 :
  let normalized :=
    dict_of (map (fun col => (py_strip (py_lower col), col)) (columns df)) in
  normalized !! "room number" = Some c1 ->
  normalized !! "number of persons" = Some c2 ->
  normalized !! "day of check out" = Some c3 ->
  normalized !! "half-board included?" = Some c4 ->
  _normalize_columns df
  = Ok (df_rename df (dict_of [(c1, "room number"); (c2, "number of persons");
                               (c3, "day of check out");
                               (c4, "half-board included?")])).
Proof.
  intros normalized H1 H2 H3 H4. unfold _normalize_columns. fold normalized.
  assert (Hnone : filter (fun col => normalized !! col = None)
                    (map fst REQUIRED_COLUMNS) = []).
  { cbn [map fst REQUIRED_COLUMNS].
    rewrite !filter_cons_False, filter_nil; [reflexivity|..]; congruence. }
  rewrite Hnone. rewrite bool_decide_eq_true_2 by reflexivity. cbn [negb].
  cbn [map fst REQUIRED_COLUMNS mapM]. unfold dict_get.
  rewrite H1, H2, H3, H4. reflexivity.
Qed.

Lemma normalized_lookup cols k c :
  dict_of (map (fun col => (py_strip (py_lower col), col)) cols) !! k = Some c ->
  c ∈ cols /\ py_strip (py_lower c) = k.
Proof.
  intros Hl. apply dict_of_lookup_Some in Hl.
  change (map ?f ?l) with (f <$> l) in Hl.
  apply list_elem_of_fmap in Hl as (c' & [= -> ->] & Hc). auto.
Qed.

Lemma normalized_resolved cols k :
  resolves cols k ->
  exists c, dict_of (map (fun col => (py_strip (py_lower col), col)) cols) !! k
            = Some c.
Proof.
  intros Hr.
  destruct (dict_of _ !! k) as [c|] eqn:Hl; [eauto|].
  apply normalized_None in Hl. contradiction.
Qed.

(** The renaming the resolver applies: a header is replaced by a label
    when it is the header that the dictionary keeps for that label, and it
    is kept otherwise. *)
Lemma rename_map_spec c1 c2 c3 c4 :
  py_strip (py_lower c1) = "room number" ->
  py_strip (py_lower c2) = "number of persons" ->
  py_strip (py_lower c3) = "day of check out" ->
  py_strip (py_lower c4) = "half-board included?" ->
  let rename_map :=
    dict_of [(c1, "room number"); (c2, "number of persons");
             (c3, "day of check out"); (c4, "half-board included?")] in
  (forall c k, rename_map !! c = Some k ->
               k = py_strip (py_lower c) /\ k ∈ map fst REQUIRED_COLUMNS
               /\ c ∈ [c1; c2; c3; c4])
  /\ rename_map !! c1 = Some "room number"
  /\ rename_map !! c2 = Some "number of persons"
  /\ rename_map !! c3 = Some "day of check out"
  /\ rename_map !! c4 = Some "half-board included?".
Proof.
  intros H1 H2 H3 H4 rename_map.
  assert (Hnd : NoDup [(c1, "room number"); (c2, "number of persons");
                       (c3, "day of check out");
                       (c4, "half-board included?")].*1).
  { apply (NoDup_fmap_1 (fun col => py_strip (py_lower col))).
    change (NoDup [py_strip (py_lower c1); py_strip (py_lower c2);
                   py_strip (py_lower c3); py_strip (py_lower c4)]).
    rewrite H1, H2, H3, H4. apply keys_NoDup. }
  split.
  - intros c k Hl. apply dict_of_lookup_Some in Hl.
    rewrite !elem_of_cons in Hl.
    destruct Hl as [[= -> ->]|[[= -> ->]|[[= -> ->]|[[= -> ->]|Hl]]]];
      [..|inversion Hl]; (split; [congruence|]); split; set_solver.
  - repeat split; apply dict_of_lookup_NoDup; try exact Hnd; set_solver.
Qed.

Lemma normalize_columns_Raise df :
  unresolved (columns df) <> [] ->
  _normalize_columns df
  = Raise (ValueError ("Faltan las siguientes columnas en el archivo: "
                       +:+ py_join ", " (map snd (unresolved (columns df))))).
Proof.
  intros Hne. unfold _normalize_columns. rewrite missing_unresolved.
  unfold unresolved in *. unfold REQUIRED_COLUMNS in *.
  cbn [map fst] in *. rewrite !filter_cons, filter_nil in *. cbn [fst] in *.
  repeat case_decide; try reflexivity.
  exfalso. apply Hne. reflexivity.
Qed.

Lemma normalize_columns_resolved df :
  unresolved (columns df) = [] ->
  exists c1 c2 c3 c4,
    let normalized :=
      dict_of (map (fun col => (py_strip (py_lower col), col)) (columns df)) in
    normalized !! "room number" = Some c1
    /\ normalized !! "number of persons" = Some c2
    /\ normalized !! "day of check out" = Some c3
    /\ normalized !! "half-board included?" = Some c4
    /\ _normalize_columns df
       = Ok (df_rename df
               (dict_of [(c1, "room number"); (c2, "number of persons");
                         (c3, "day of check out");
                         (c4, "half-board included?")])).
Proof.
  intros Hu.
  destruct (normalized_resolved (columns df) "room number") as [c1 H1];
    [apply unresolved_nil; [exact Hu | set_solver]|].
  destruct (normalized_resolved (columns df) "number of persons") as [c2 H2];
    [apply unresolved_nil; [exact Hu | set_solver]|].
  destruct (normalized_resolved (columns df) "day of check out") as [c3 H3];
    [apply unresolved_nil; [exact Hu | set_solver]|].
  destruct (normalized_resolved (columns df) "half-board included?") as [c4 H4];
    [apply unresolved_nil; [exact Hu | set_solver]|].
  exists c1, c2, c3, c4. cbv zeta. repeat (split; [assumption|]).
  apply normalize_columns_run; assumption.
Qed.

Lemma key_normal k :
  k ∈ map fst REQUIRED_COLUMNS -> py_strip (py_lower k) = k.
Proof.
  simpl. rewrite !elem_of_cons.
  intros [->|[->|[->|[->|Hk]]]]; [reflexivity..|inversion Hk].
Qed.

(** What a successful resolver run returns, header by header. *)
Lemma normalize_columns_Ok_inv df df1 :
  _normalize_columns df = Ok df1 ->
  unresolved (columns df) = []
  /\ exists rho : string -> string,
       df1 = mk_df (map rho (columns df)) (rows df)
       /\ (forall c, rho c = c
                     \/ rho c = py_strip (py_lower c)
                        /\ rho c ∈ map fst REQUIRED_COLUMNS)
       /\ (forall k, k ∈ map fst REQUIRED_COLUMNS ->
             exists c, c ∈ columns df
               /\ dict_of (map (fun col => (py_strip (py_lower col), col))
                             (columns df)) !! k = Some c
               /\ rho c = k).
Proof.
  intros Hn.
  destruct (decide (unresolved (columns df) = [])) as [Hu|Hu].
  2: { rewrite (normalize_columns_Raise df Hu) in Hn. discriminate. }
  split; [exact Hu|].
  destruct (normalize_columns_resolved df Hu)
    as (c1 & c2 & c3 & c4 & H1 & H2 & H3 & H4 & Hrun).
  rewrite Hrun in Hn. injection Hn as <-.
  destruct (normalized_lookup _ _ _ H1) as [Hc1 Hn1].
  destruct (normalized_lookup _ _ _ H2) as [Hc2 Hn2].
  destruct (normalized_lookup _ _ _ H3) as [Hc3 Hn3].
  destruct (normalized_lookup _ _ _ H4) as [Hc4 Hn4].
  destruct (rename_map_spec c1 c2 c3 c4 Hn1 Hn2 Hn3 Hn4)
    as (Hany & Hr1 & Hr2 & Hr3 & Hr4).
  eexists. split; [reflexivity|]. split.
  - intros c. cbv beta.
    destruct (dict_of _ !! c) as [k|] eqn:Hl; simpl; [|left; reflexivity].
    right. destruct (Hany c k Hl) as (-> & Hk & _). auto.
  - intros k. simpl. rewrite !elem_of_cons.
    intros [->|[->|[->|[->|Hk]]]]; [..|inversion Hk].
    + exists c1. rewrite Hr1. auto.
    + exists c2. rewrite Hr2. auto.
    + exists c3. rewrite Hr3. auto.
    + exists c4. rewrite Hr4. auto.
Qed.

Lemma rho_normal (rho : string -> string) c :
  (rho c = c \/ rho c = py_strip (py_lower c) /\ rho c ∈ map fst REQUIRED_COLUMNS) ->
  py_strip (py_lower (rho c)) = py_strip (py_lower c).
Proof.
  intros [->|[Hr Hk]]; [reflexivity|].
  rewrite (key_normal _ Hk). exact Hr.
Qed.

(** X4. The resolver on any headers. It succeeds exactly when every label is
    resolved, and otherwise raises a [ValueError], never a [KeyError]. When
    it succeeds the rows are untouched, the headers keep their number,
    their order and their normal forms, a header is either kept or replaced
    by the label it normalizes to, and the four labels are among the
    headers returned. *)
Theorem normalize_columns_outcome (df : DataFrame) :
  match _normalize_columns df with
  | Ok df1 =>
      unresolved (columns df) = []
      /\ rows df1 = rows df
      /\ Forall2 (fun c c1 =>
                    c1 = c
                    \/ c1 = py_strip (py_lower c)
                       /\ c1 ∈ map fst REQUIRED_COLUMNS)
           (columns df) (columns df1)
      /\ map (fun col => py_strip (py_lower col)) (columns df1)
         = map (fun col => py_strip (py_lower col)) (columns df)
      /\ (forall k, k ∈ map fst REQUIRED_COLUMNS -> k ∈ columns df1)
  | Raise e =>
      unresolved (columns df) <> [] /\ exists msg, e = ValueError msg
  end.
Proof.
  destruct (_normalize_columns df) as [df1|e] eqn:Hn.
  - apply normalize_columns_Ok_inv in Hn as (Hu & rho & -> & Hrho & Hkeys).
    cbn [columns rows].
    split; [exact Hu|]. split; [reflexivity|]. split; [|split].
    + change (map ?f ?l) with (f <$> l). apply Forall2_fmap_r, Forall_Forall2_diag.
      apply Forall_forall. intros c _. cbv beta.
      destruct (Hrho c) as [Hr|[Hr Hk]]; auto.
    + rewrite map_map. apply map_ext. intros c. apply rho_normal, Hrho.
    + intros k Hk. destruct (Hkeys k Hk) as (c & Hc & _ & Hrc).
      change (map ?f ?l) with (f <$> l). apply list_elem_of_fmap. eauto.
  - destruct (decide (unresolved (columns df) = [])) as [Hu|Hu].
    + destruct (normalize_columns_resolved df Hu) as (? & ? & ? & ? & _ & _ & _ & _ & Hrun).
      congruence.
    + split; [exact Hu|]. rewrite (normalize_columns_Raise df Hu) in Hn.
      injection Hn as <-. eauto.
Qed.

(** X5. Resolving the headers of a table that the resolver returned changes
    nothing: the resolver is idempotent. *)
Theorem normalize_columns_idempotent (df df1 : DataFrame) :
  _normalize_columns df = Ok df1 -> _normalize_columns df1 = Ok df1.
Proof.
  intros Hn.
  apply normalize_columns_Ok_inv in Hn as (Hu & rho & -> & Hrho & Hkeys).
  assert (Hl : forall k, k ∈ map fst REQUIRED_COLUMNS ->
            dict_of (map (fun col => (py_strip (py_lower col), col))
                       (map rho (columns df))) !! k = Some k).
  { intros k Hk. destruct (Hkeys k Hk) as (c & _ & Hc & Hrc).
    rewrite map_map.
    rewrite (dict_of_map_last (fun c => py_strip (py_lower (rho c))) rho).
    rewrite (dict_of_map_last (fun c => py_strip (py_lower c)) (fun c => c)) in Hc.
    rewrite (list_filter_iff _ (fun c => py_strip (py_lower c) = k))
      by (intros c'; rewrite (rho_normal rho c' (Hrho c')); reflexivity).
    destruct (last _) as [c'|]; [|discriminate].
    injection Hc as ->. simpl. rewrite Hrc. reflexivity. }
  rewrite (normalize_columns_run _ "room number" "number of persons"
             "day of check out" "half-board included?");
    try (apply Hl; set_solver).
  unfold df_rename. cbn [columns rows]. do 2 f_equal.
  rewrite <- (map_id (map rho (columns df))) at 2.
  apply map_ext. intros c.
  destruct (dict_of _ !! c) as [k|] eqn:Hc; [|reflexivity]. simpl.
  destruct (rename_map_spec "room number" "number of persons"
              "day of check out" "half-board included?"
              eq_refl eq_refl eq_refl eq_refl) as [Hany _].
  destruct (Hany c k Hc) as (-> & _ & Hin).
  apply key_normal. exact Hin.
Qed.

Lemma normalize_columns_idempotent_witness :
  exists df1,
    _normalize_columns sample_df = Ok df1
    /\ columns df1 = ["room number"; "number of persons"; "day of check out";
                      "notes"; "half-board included?"]
    /\ _normalize_columns df1 = Ok df1.
Proof.
  eexists. split; [reflexivity|]. split; [reflexivity|].
  apply (normalize_columns_idempotent sample_df). reflexivity.
Defined.

(** ** Where the pipeline can fail *)

Lemma row_get_Raise cols row key e : row_get cols row key = Raise e -> e = KeyError.
Proof.
  revert row. induction cols as [|col cols IH]; intros [|value row]; simpl;
    try (intros [= <-]; reflexivity).
  destruct (String.eqb col key); [discriminate | apply IH].
Qed.

Lemma row_get_total cols row key :
  key ∈ cols -> length row = length cols ->
  exists value, row_get cols row key = Ok value.
Proof.
  revert row. induction cols as [|col cols IH]; intros row Hin Hlen.
  - inversion Hin.
  - destruct row as [|value row]; [discriminate|]. simpl.
    destruct (String.eqb_spec col key) as [Heq|Hne]; [eauto|].
    apply IH; [|simpl in Hlen; congruence].
    apply elem_of_cons in Hin as [Hk|Hk]; [congruence | exact Hk].
Qed.

Lemma mapM_total {A B} (f : A -> res B) l :
  Forall (fun x => exists y, f x = Ok y) l -> exists l', mapM f l = Ok l'.
Proof.
  induction 1 as [|x l [y Hy] _ [l' Hl']]; simpl; [eauto|].
  rewrite Hy. simpl. rewrite Hl'. simpl. eauto.
Qed.

Lemma df_select_total df keys :
  (forall key, key ∈ keys -> key ∈ columns df) ->
  Forall (fun row => length row = length (columns df)) (rows df) ->
  exists df2, df_select df keys = Ok df2.
Proof.
  intros Hkeys Hrows. unfold df_select.
  destruct (mapM_total
              (fun key => if bool_decide (key ∈ columns df)
                          then Ok key else Raise KeyError) keys) as [ks ->].
  { apply Forall_forall. intros key Hk.
    rewrite bool_decide_eq_true_2 by (apply Hkeys, Hk). eauto. }
  simpl.
  destruct (mapM_total (fun row => mapM (row_get (columns df) row) keys) (rows df))
    as [rows' ->]; [|simpl; eauto].
  eapply Forall_impl; [exact Hrows|]. simpl. intros row Hlen.
  apply mapM_total. apply Forall_forall. intros key Hk.
  apply row_get_total; [apply Hkeys, Hk | exact Hlen].
Qed.

(** Whether a row can be built does not depend on the id it would get. *)
Lemma build_record_any_id `{Runtime} cols i j row r :
  build_record cols i row = Ok r -> exists r', build_record cols j row = Ok r'.
Proof.
  intros Hb. destruct (build_record cols j row) as [r'|e] eqn:Hj; [eauto|].
  apply (build_record_Raise _ _ i) in Hj. congruence.
Qed.

(** The loop stops at the first row that cannot be built: the rows before
    it and that row have each taken an id from the counter. *)
Lemma parse_rows_fails_at `{Runtime} cols good row rest parsed st e :
  Forall (fun r => exists rec, build_record cols 0 r = Ok rec) good ->
  build_record cols 0 row = Raise e ->
  parse_rows cols (good ++ row :: rest) parsed st
  = (Raise e,
     mk_store (_records st)
       (_record_id_counter st + Z.of_nat (length good) + 1)).
Proof.
  intros Hgood Hrow. revert parsed st.
  induction Hgood as [|r good [rec Hr] _ IH]; intros parsed st.
  - cbn [app length]. rewrite parse_rows_cons.
    rewrite (build_record_Raise _ _ (_record_id_counter st) _ _ Hrow).
    f_equal. f_equal. simpl. lia.
  - cbn [app length]. rewrite parse_rows_cons.
    destruct (build_record_any_id _ _ (_record_id_counter st) _ _ Hr) as [r' ->].
    rewrite IH. simpl. f_equal. f_equal. lia.
Qed.

Lemma parse_rows_Raise_inv `{Runtime} cols rws parsed st e st' :
  parse_rows cols rws parsed st = (Raise e, st') ->
  exists good row rest,
    rws = (good ++ row :: rest)%list
    /\ Forall (fun r => exists rec, build_record cols 0 r = Ok rec) good
    /\ build_record cols 0 row = Raise e.
Proof.
  revert parsed st. induction rws as [|row rws IH]; intros parsed st.
  - discriminate.
  - rewrite parse_rows_cons.
    destruct (build_record cols (_record_id_counter st) row) as [r|e'] eqn:Hb.
    + intros Hp. apply IH in Hp as (good & row' & rest & -> & Hgood & Hrow).
      exists (row :: good), row', rest. split; [reflexivity|].
      split; [|exact Hrow]. constructor; [|exact Hgood].
      eapply build_record_any_id. exact Hb.
    + intros [= <- <-]. exists [], row, rws. split; [reflexivity|].
      split; [constructor|]. eapply build_record_Raise. exact Hb.
Qed.

(** A row that has its four cells fails to build only at the conversion of
    the occupants cell. *)
Lemma build_record_Raise_inv `{Runtime} cols i row e :
  (forall k, k ∈ map fst REQUIRED_COLUMNS ->
             exists v, row_get cols row k = Ok v) ->
  build_record cols i row = Raise e ->
  exists c, row_get cols row "number of persons" = Ok c
            /\ personas_of_cell c = Raise e.
Proof.
  intros Hall.
  destruct (Hall "room number") as [v1 H1]; [set_solver|].
  destruct (Hall "number of persons") as [c H2]; [set_solver|].
  destruct (Hall "day of check out") as [v3 H3]; [set_solver|].
  destruct (Hall "half-board included?") as [v4 H4]; [set_solver|].
  unfold build_record. rewrite H1, H2, H3, H4. simpl.
  destruct (personas_of_cell c) as [p|e3] eqn:Hp; simpl.
  2: { intros [= <-]. eauto. }
  destruct (format_checkout_total v3) as [s ->]. discriminate.
Qed.

Lemma personas_of_cell_Raise `{Runtime} c e :
  personas_of_cell c = Raise e ->
  (exists s, c = Text s /\ int_of_str s = None
             /\ e = ValueError ("invalid literal for int() with base 10: "
                                +:+ repr_str s))
  \/ (exists d t, c = DateTime d t) /\ e = TypeError
  \/ (exists neg, c = Float (Infinity neg)) /\ e = OverflowError.
Proof.
  destruct c as [k|d t|n|n|b|[m ex|neg]|s]; try discriminate.
  - intros [= <-]. right. left. eauto.
  - intros [= <-]. right. right. eauto.
  - unfold personas_of_cell. simpl. destruct (int_of_str s) eqn:Hs; [discriminate|].
    intros [= <-]. left. eauto.
Qed.

(** The pipeline on a table that has the four columns: the loop runs over
    the rows reduced to these columns. *)
Lemma parse_file_projection `{Runtime} f st df df1 :
  content f <> [] ->
  read_excel (content f) = Some df ->
  Forall (fun row => length row = length (columns df)) (rows df) ->
  _normalize_columns df = Ok df1 ->
  exists prows,
    _parse_file f st = parse_rows (map fst REQUIRED_COLUMNS) prows [] st
    /\ Forall2 (fun row prow =>
                  mapM (row_get (columns df1) row) (map fst REQUIRED_COLUMNS)
                  = Ok prow)
         (rows df) prows.
Proof.
  intros Hcontent Hread Hrows Hn.
  pose proof Hn as Hinv.
  apply normalize_columns_Ok_inv in Hinv as (_ & rho & Hdf1 & _ & Hkeys).
  destruct (df_select_total df1 (map fst REQUIRED_COLUMNS)) as [df2 Hs].
  { intros k Hk. destruct (Hkeys k Hk) as (c & Hc & _ & Hrc).
    rewrite Hdf1. cbn [columns]. change (map ?f ?l) with (f <$> l).
    apply list_elem_of_fmap. eauto. }
  { rewrite Hdf1. cbn [columns rows]. rewrite length_map. exact Hrows. }
  exists (rows df2). split.
  - unfold _parse_file. destruct (content f) as [|b bs]; [congruence|].
    rewrite Hread. unfold mbind, M_bind, lift. rewrite Hn, Hs.
    apply df_select_Ok in Hs as [-> _]. reflexivity.
  - apply df_select_Ok in Hs as [_ Hproj].
    assert (Hr : rows df1 = rows df) by (rewrite Hdf1; reflexivity).
    rewrite Hr in Hproj. exact Hproj.
Qed.

(** A reduced row builds what the row builds. *)
Lemma parse_file_loop `{Runtime} f st df df1 :
  content f <> [] ->
  read_excel (content f) = Some df ->
  Forall (fun row => length row = length (columns df)) (rows df) ->
  _normalize_columns df = Ok df1 ->
  exists prows,
    _parse_file f st = parse_rows (map fst REQUIRED_COLUMNS) prows [] st
    /\ Forall2 (fun row prow =>
                  forall i, build_record (map fst REQUIRED_COLUMNS) i prow
                            = build_record (columns df1) i row)
         (rows df) prows.
Proof.
  intros Hcontent Hread Hrows Hn.
  destruct (parse_file_projection f st df df1 Hcontent Hread Hrows Hn)
    as (prows & Hparse & Hproj).
  exists prows. split; [exact Hparse|].
  eapply Forall2_impl; [exact Hproj|].
  simpl. intros row prow Hp i. apply build_record_projected. exact Hp.
Qed.

Lemma upload_of_parse `{Runtime} f st :
  filename f <> "" ->
  upload (Some f) st
  = match _parse_file f st with
    | (Raise (ValueError msg), st') => (Ok (mk_flash msg "error"), st')
    | (Raise e, st') => (Raise e, st')
    | (Ok parsed, st') => (Ok upload_ok, mk_store parsed (_record_id_counter st'))
    end.
Proof.
  intros Hname. unfold upload. apply String.eqb_neq in Hname. rewrite Hname.
  reflexivity.
Qed.

(** C4, at a text that is no number. A row whose occupants cell holds a
    text that [int] does not read, such as ["two"], is not given the empty
    marker: building its record raises the [ValueError] of [int], and the
    upload of a table that has such a row does not succeed and stores
    nothing, the records of before staying in place. The table is one
    whose headers have distinct normal forms and whose rows have one cell
    per header; the text is made of ASCII characters, at most 4300 of
    them. *)
Theorem C4_text_occupants_fails `{Runtime} (f : FileStorage) (st : store)
    (df df1 : DataFrame) (row : list cell) (s : string) :
  filename f <> "" -> content f <> [] ->
  read_excel (content f) = Some df ->
  NoDup (map (fun col => py_strip (py_lower col)) (columns df)) ->
  Forall (fun row => length row = length (columns df)) (rows df) ->
  _normalize_columns df = Ok df1 ->
  row ∈ rows df ->
  row_get (columns df1) row "number of persons" = Ok (Text s) ->
  ascii_text s -> (String.length s <= 4300)%nat ->
  int_of_str s = None ->
  (forall record_id,
      build_record (columns df1) record_id row
      = Raise (ValueError ("invalid literal for int() with base 10: "
                           +:+ repr_str s)))
  /\ (upload (Some f) st).1 <> Ok upload_ok
  /\ _records (upload (Some f) st).2 = _records st.
Proof.
  intros Hname Hcontent Hread _ Hrows Hn Hin Hcell _ _ Hs.
  assert (Hall : forall k, k ∈ map fst REQUIRED_COLUMNS ->
            exists v, row_get (columns df1) row k = Ok v).
  { intros k Hk. pose proof Hrows as Hlen. rewrite Forall_forall in Hlen.
    specialize (Hlen row Hin). pose proof Hn as Hinv.
    apply normalize_columns_Ok_inv in Hinv as (_ & rho & -> & _ & Hkeys).
    cbn [columns]. apply row_get_total; [|rewrite length_map; exact Hlen].
    destruct (Hkeys k Hk) as (c' & Hc' & _ & Hrc).
    change (map ?f ?l) with (f <$> l). apply list_elem_of_fmap. eauto. }
  assert (Hraise : forall record_id,
            build_record (columns df1) record_id row
            = Raise (ValueError ("invalid literal for int() with base 10: "
                                 +:+ repr_str s))).
  { intros record_id. destruct (Hall "room number") as [v1 H1]; [set_solver|].
    unfold build_record. rewrite H1, Hcell. simpl.
    unfold personas_of_cell. simpl. rewrite Hs. reflexivity. }
  split; [exact Hraise|].
  destruct (parse_file_loop f st df df1 Hcontent Hread Hrows Hn)
    as (prows & Hparse & Hproj).
  apply list_elem_of_lookup_1 in Hin as [i Hi].
  destruct (Forall2_lookup_l _ _ _ _ _ Hproj Hi) as (prow & Hpi & Hprow).
  destruct (parse_rows_Raise (map fst REQUIRED_COLUMNS) prows [] st prow _
              (list_elem_of_lookup_2 _ _ _ Hpi)
              (eq_trans (Hprow 0) (Hraise 0)))
    as (e' & st' & Hp).
  rewrite (upload_of_parse f st Hname), Hparse, Hp.
  apply parse_rows_store in Hp as [Hrec _].
  destruct e'; simpl; (split; [discriminate | exact Hrec]).
Qed.

Lemma C4_text_occupants_fails_witness :
  @upload (sample_runtime broken_df) (Some sample_file) sample_store
  = (Ok (mk_flash "invalid literal for int() with base 10: 'two'" "error"),
     mk_store (_records sample_store) 8)
  /\ _records (@upload (sample_runtime broken_df) (Some sample_file)
                 sample_store).2
     = _records sample_store.
Proof.
  split; [reflexivity|].
  refine (proj2 (proj2
    (@C4_text_occupants_fails (sample_runtime broken_df) sample_file
       sample_store broken_df broken_df
       [Int 102; Text "two"; Int 45001; Text "no"] "two"
       _ _ _ _ _ _ _ _ _ _ _))).
  - discriminate.
  - discriminate.
  - reflexivity.
  - apply (bool_decide_unpack _). vm_compute. exact I.
  - repeat constructor.
  - reflexivity.
  - right. left.
  - reflexivity.
  - apply (bool_decide_unpack _). vm_compute. exact I.
  - simpl. lia.
  - reflexivity.
Defined.

(** X6. An upload that fails at a row has used up the ids of the rows before
    it and of that row: the stored records are as before, and the counter
    has moved past these ids, which no later record will get. The table is
    one whose headers have distinct normal forms and whose rows have one
    cell per header. *)
Theorem failed_upload_skips_ids `{Runtime} (f : FileStorage) (st : store)
    (df df1 : DataFrame) (good rest : list (list cell)) (row : list cell)
    (e : exn) :
  filename f <> "" -> content f <> [] ->
  read_excel (content f) = Some df ->
  NoDup (map (fun col => py_strip (py_lower col)) (columns df)) ->
  Forall (fun row => length row = length (columns df)) (rows df) ->
  _normalize_columns df = Ok df1 ->
  rows df = (good ++ row :: rest)%list ->
  Forall (fun r => exists rec, build_record (columns df1) 0 r = Ok rec) good ->
  build_record (columns df1) 0 row = Raise e ->
  upload (Some f) st
  = (match e with
     | ValueError msg => Ok (mk_flash msg "error")
     | _ => Raise e
     end,
     mk_store (_records st)
       (_record_id_counter st + Z.of_nat (length good) + 1)).
Proof.
  intros Hname Hcontent Hread _ Hrows Hn Hsplit Hgood Hrow.
  destruct (parse_file_loop f st df df1 Hcontent Hread Hrows Hn)
    as (prows & Hparse & Hproj).
  rewrite Hsplit in Hproj.
  apply Forall2_app_inv_l in Hproj as (pgood & ptail & Hpg & Hpt & ->).
  inversion Hpt as [|? prow ? prest Hprow Hprest]; subst.
  rewrite (upload_of_parse f st Hname), Hparse.
  rewrite (parse_rows_fails_at _ pgood prow prest [] st e).
  - rewrite <- (Forall2_length _ _ _ Hpg). destruct e; reflexivity.
  - clear - Hpg Hgood. induction Hpg as [|r pr good pgood Hr _ IH]; constructor.
    + inversion Hgood as [|? ? [rec Hrec] _]; subst. rewrite Hr. eauto.
    + apply IH. inversion Hgood; assumption.
  - rewrite Hprow. exact Hrow.
Qed.

Lemma failed_upload_skips_ids_witness :
  @upload (sample_runtime broken_df) (Some sample_file) sample_store
  = (Ok (mk_flash "invalid literal for int() with base 10: 'two'" "error"),
     mk_store (_records sample_store) 8).
Proof.
  apply (@failed_upload_skips_ids (sample_runtime broken_df) sample_file
           sample_store broken_df broken_df
           [ [Int 101; Int 2; Int 45000; Text "yes"] ] []
           [Int 102; Text "two"; Int 45001; Text "no"]
           (ValueError "invalid literal for int() with base 10: 'two'")).
  - discriminate.
  - discriminate.
  - reflexivity.
  - apply (bool_decide_unpack _). vm_compute. exact I.
  - repeat constructor.
  - reflexivity.
  - reflexivity.
  - constructor; [|constructor]. eexists. reflexivity.
  - reflexivity.
Defined.

(** X7. The only exceptions [upload] lets through. For a table read from the
    file whose headers have distinct normal forms (the renamed table then
    has no two columns of one name) and whose rows have one cell per
    header, the handler raises only when
    the occupants cell of some row is a date, which [int] refuses with a
    [TypeError], or an infinite number, which gives an [OverflowError]; it
    never raises a [KeyError] or a [ValueError], and the stored records
    are as before. *)
Theorem upload_uncaught_exceptions `{Runtime} (f : FileStorage) (st st' : store)
    (df : DataFrame) (e : exn) :
  read_excel (content f) = Some df ->
  NoDup (map (fun col => py_strip (py_lower col)) (columns df)) ->
  Forall (fun row => length row = length (columns df)) (rows df) ->
  upload (Some f) st = (Raise e, st') ->
  exists df1 row c,
    _normalize_columns df = Ok df1
    /\ row ∈ rows df
    /\ row_get (columns df1) row "number of persons" = Ok c
    /\ ((exists d t, c = DateTime d t) /\ e = TypeError
        \/ (exists neg, c = Float (Infinity neg)) /\ e = OverflowError)
    /\ _records st' = _records st.
Proof.
  intros Hread _ Hrows Hup.
  assert (Hname : filename f <> "").
  { intros Hname. unfold upload in Hup. rewrite Hname in Hup. discriminate. }
  rewrite (upload_of_parse f st Hname) in Hup.
  destruct (_parse_file f st) as [[parsed|e'] st1] eqn:Hp; [discriminate|].
  assert (He : e' = e /\ st1 = st' /\ forall msg, e <> ValueError msg).
  { destruct e'; try discriminate; injection Hup as <- <-;
      repeat split; discriminate. }
  destruct He as (-> & -> & Hnv). clear Hup.
  assert (Hcontent : content f <> []).
  { intros Hc. unfold _parse_file in Hp. rewrite Hc in Hp.
    injection Hp as <- _. eapply Hnv. reflexivity. }
  destruct (_normalize_columns df) as [df1|e1] eqn:Hn.
  2: { exfalso. destruct (decide (unresolved (columns df) = [])) as [Hu|Hu].
       - destruct (normalize_columns_resolved df Hu)
           as (? & ? & ? & ? & _ & _ & _ & _ & Hrun). congruence.
       - unfold _parse_file in Hp. destruct (content f); [congruence|].
         rewrite Hread in Hp. unfold mbind, M_bind, lift in Hp.
         rewrite (normalize_columns_Raise df Hu) in Hp.
         injection Hp as <- _. eapply Hnv. reflexivity. }
  destruct (parse_file_loop f st df df1 Hcontent Hread Hrows Hn)
    as (prows & Hparse & Hproj).
  rewrite Hparse in Hp. pose proof Hp as Hstore.
  apply parse_rows_store in Hstore as [Hrec _].
  apply parse_rows_Raise_inv in Hp as (pgood & prow & prest & -> & _ & Hraise).
  apply Forall2_app_inv_r in Hproj as (good & tail & _ & Htail & Hsplit).
  inversion Htail as [|row ? rest ? Hrow _]; subst.
  rewrite Hrow in Hraise.
  assert (Hin : row ∈ rows df) by (rewrite Hsplit; set_solver).
  assert (Hall : forall k, k ∈ map fst REQUIRED_COLUMNS ->
            exists v, row_get (columns df1) row k = Ok v).
  { intros k Hk. rewrite Forall_forall in Hrows. specialize (Hrows row Hin).
    apply normalize_columns_Ok_inv in Hn as (_ & rho & -> & _ & Hkeys).
    cbn [columns]. apply row_get_total; [|rewrite length_map; exact Hrows].
    destruct (Hkeys k Hk) as (c' & Hc' & _ & Hrc).
    change (map ?f ?l) with (f <$> l). apply list_elem_of_fmap. eauto. }
  apply (build_record_Raise_inv _ _ _ _ Hall) in Hraise as (c & Hc & Hpc).
  exists df1, row, c. split; [reflexivity|]. split; [exact Hin|].
  split; [exact Hc|]. split; [|exact Hrec].
  apply personas_of_cell_Raise in Hpc as [(s & _ & _ & ->)|Hpc]; [|exact Hpc].
  exfalso. eapply Hnv. reflexivity.
Qed.

Lemma upload_uncaught_exceptions_witness :
  exists row,
    row ∈ rows date_in_persons_df
    /\ row_get (columns date_in_persons_df) row "number of persons"
       = Ok (DateTime (mk_date 2024 3 5) 0)
    /\ @upload (sample_runtime date_in_persons_df) (Some sample_file) sample_store
       = (Raise TypeError, mk_store (_records sample_store) 7).
Proof.
  destruct (@upload_uncaught_exceptions (sample_runtime date_in_persons_df)
              sample_file sample_store (mk_store (_records sample_store) 7)
              date_in_persons_df TypeError)
    as (df1 & row & c & Hn & Hin & Hc & _ & _).
  - reflexivity.
  - apply (bool_decide_unpack _). vm_compute. exact I.
  - repeat constructor.
  - reflexivity.
  - injection Hn as <-. exists row. split; [exact Hin|]. split; [|reflexivity].
    apply list_elem_of_singleton in Hin. subst row. reflexivity.
Defined.

(** ** Uploads refused before any row is read *)

(** X8. The checks of [upload] in their order: no file or a file without a
    name, then a file without content, then content that is no workbook.
    Each gives its own message, flashed as an error, and leaves the whole
    store, the counter included, as it was: no id is used up. A name is
    asked for before the content is looked at, and the content is read
    only when there is some. *)
Theorem upload_refused_early `{Runtime} (file : option FileStorage) (st : store) :
  match file with
  | None =>
      upload file st
      = (Ok (mk_flash "Debes seleccionar un archivo de Excel antes de subirlo."
                      "error"), st)
  | Some f =>
      (filename f = "" ->
       upload file st
       = (Ok (mk_flash "Debes seleccionar un archivo de Excel antes de subirlo."
                       "error"), st))
      /\ (filename f <> "" -> content f = [] ->
          upload file st = (Ok (mk_flash "El archivo está vacío." "error"), st))
      /\ (filename f <> "" -> content f <> [] ->
          read_excel (content f) = None ->
          upload file st
          = (Ok (mk_flash
                   "No se pudo leer el archivo. Asegúrate de que sea un Excel válido."
                   "error"), st))
  end.
Proof.
  destruct file as [f|]; [|reflexivity].
  split; [|split].
  - intros Hname. unfold upload. rewrite Hname. reflexivity.
  - intros Hname Hc. rewrite (upload_of_parse f st Hname).
    unfold _parse_file. rewrite Hc. reflexivity.
  - intros Hname Hc Hread. rewrite (upload_of_parse f st Hname).
    unfold _parse_file. destruct (content f); [congruence|].
    rewrite Hread. reflexivity.
Qed.

(** ** The statuses over the life of the process *)

Lemma flip_estado_status r : status_ok (flip_estado r).
Proof.
  unfold status_ok, flip_estado. simpl.
  destruct (String.eqb (estado r) Pendiente); auto.
Qed.

Lemma toggle_statuses record_id st :
  Forall status_ok (_records st) ->
  Forall status_ok (_records (toggle record_id st).2).
Proof.
  intros Hok. unfold toggle.
  destruct (list_find _ _) as [[i r]|]; simpl; [|exact Hok].
  apply Forall_insert; [exact Hok | apply flip_estado_status].
Qed.

Lemma upload_statuses `{Runtime} file st :
  Forall status_ok (_records st) ->
  Forall status_ok (_records (upload file st).2).
Proof.
  intros Hok. destruct (upload file st) as [out st'] eqn:Hup.
  apply upload_cases in Hup
    as [(f & parsed & st1 & _ & _ & Hp & _ & ->)|(_ & Hr & _)]; simpl.
  - apply parse_file_Ok in Hp as (df & df1 & df2 & _ & _ & _ & _ & Hp).
    apply parse_rows_Ok in Hp as (new & -> & Hnew & _ & _). simpl.
    clear - Hnew. induction Hnew as [|row r rws new Hb _ IH]; constructor.
    + left. apply build_record_id in Hb as [_ He]. exact He.
    + exact IH.
  - rewrite Hr. exact Hok.
Qed.

Lemma serve_statuses `{Runtime} rq st :
  Forall status_ok (_records st) ->
  Forall status_ok (_records (serve rq st).2).
Proof.
  intros Hok. destruct rq as [|file|record_id]; simpl.
  - exact Hok.
  - pose proof (upload_statuses file st Hok) as Hup.
    destruct (upload file st) as [[fl|e] st']; exact Hup.
  - apply toggle_statuses, Hok.
Qed.

Lemma serve_all_statuses `{Runtime} rqs st :
  Forall status_ok (_records st) ->
  Forall status_ok (_records (serve_all rqs st).2).
Proof.
  revert st. induction rqs as [|rq rqs IH]; intros st Hok; simpl; [exact Hok|].
  pose proof (serve_statuses rq st Hok) as H1.
  destruct (serve rq st) as [created st1]. simpl in H1.
  specialize (IH st1 H1). destruct (serve_all rqs st1) as [later st2]. exact IH.
Qed.

Lemma toggle_twice record_id st :
  Forall status_ok (_records st) ->
  (toggle record_id (toggle record_id st).2).2 = st.
Proof.
  intros Hok. unfold toggle at 2.
  destruct (list_find _ (_records st)) as [[i r]|] eqn:Hf; simpl.
  - pose proof Hf as Hf'. apply list_find_Some in Hf' as (Hi & Hr & Hfirst).
    assert (Hf2 : list_find (fun r => id r = record_id)
                    (<[i := flip_estado r]> (_records st))
                  = Some (i, flip_estado r)).
    { apply list_find_Some. split; [|split].
      - apply list_lookup_insert_eq. eapply lookup_lt_Some; eassumption.
      - exact Hr.
      - intros j y Hj Hlt. rewrite list_lookup_insert_ne in Hj by lia.
        eapply Hfirst; eassumption. }
    unfold toggle. simpl. rewrite Hf2. simpl.
    rewrite list_insert_insert_eq, flip_estado_involutive.
    + rewrite list_insert_id by assumption. apply store_eta.
    + rewrite Forall_forall in Hok. apply Hok.
      eapply list_elem_of_lookup_2. eassumption.
  - unfold toggle. rewrite Hf. reflexivity.
Qed.

(** X9. Whatever requests the process has served since it started, every
    stored record has one of the two statuses, [Pendiente] or [Ingresó],
    and toggling any id twice gives back the store exactly as it was. *)
Theorem statuses_over_a_run `{Runtime} (rqs : list request) (record_id : Z) :
  let st := (serve_all rqs initial_store).2 in
  Forall status_ok (_records st)
  /\ (toggle record_id (toggle record_id st).2).2 = st.
Proof.
  intros st.
  assert (Hok : Forall status_ok (_records st))
    by (apply serve_all_statuses; constructor).
  split; [exact Hok | apply toggle_twice, Hok].
Qed.

(** ** Trimmed fields *)

Lemma py_lstrip_split s :
  exists pre, s = pre +:+ py_lstrip s /\ all_space pre.
Proof.
  induction s as [|c s (pre & Hs & Hpre)].
  - exists "". split; reflexivity.
  - simpl. destruct (is_space c) eqn:Hc.
    + exists (String c pre). split.
      * change (String c s = String c (pre +:+ py_lstrip s)). rewrite <- Hs. reflexivity.
      * apply all_space_cons. auto.
    + exists "". split; reflexivity.
Qed.

Lemma py_rstrip_split s :
  exists post, s = py_rstrip s +:+ post /\ all_space post.
Proof.
  induction s as [|c s (post & Hs & Hpost)].
  - exists "". split; reflexivity.
  - simpl. destruct (py_rstrip s) as [|d r] eqn:Hr.
    + change ("" +:+ post) with post in Hs. subst post.
      destruct (is_space c) eqn:Hc.
      * exists (String c s). split; [reflexivity | apply all_space_cons; auto].
      * exists s. split; [reflexivity | exact Hpost].
    + exists post. split; [|exact Hpost].
      change (String c s = String c (String d r +:+ post)). rewrite <- Hs. reflexivity.
Qed.

Lemma py_rstrip_idem s : py_rstrip (py_rstrip s) = py_rstrip s.
Proof.
  induction s as [|c s IH]; [reflexivity|]. simpl.
  destruct (py_rstrip s) as [|d r] eqn:Hr.
  - destruct (is_space c) eqn:Hc; [reflexivity|]. simpl. rewrite Hc. reflexivity.
  - change (py_rstrip (String c (String d r))) with
      (match py_rstrip (String d r) with
       | "" => if is_space c then "" else String c ""
       | r' => String c r'
       end).
    rewrite IH. reflexivity.
Qed.

Lemma py_lstrip_length s : (String.length (py_lstrip s) <= String.length s)%nat.
Proof.
  induction s as [|c s IH]; simpl; [lia|].
  destruct (is_space c); simpl; lia.
Qed.

Lemma py_lstrip_rstrip s :
  py_lstrip s = s -> py_lstrip (py_rstrip s) = py_rstrip s.
Proof.
  destruct s as [|c s]; [reflexivity|]. simpl.
  destruct (is_space c) eqn:Hc.
  - intros Hs. exfalso. pose proof (py_lstrip_length s) as Hlen.
    rewrite Hs in Hlen. simpl in Hlen. lia.
  - intros _. destruct (py_rstrip s); simpl; rewrite Hc; reflexivity.
Qed.

Lemma py_lstrip_idem s : py_lstrip (py_lstrip s) = py_lstrip s.
Proof.
  induction s as [|c s IH]; [reflexivity|]. simpl.
  destruct (is_space c) eqn:Hc; [exact IH|]. simpl. rewrite Hc. reflexivity.
Qed.

(** What [strip] returns has no white space left around it, and it is the
    string without some white space at its two ends. *)
Lemma py_strip_spec s :
  py_lstrip (py_strip s) = py_strip s
  /\ py_rstrip (py_strip s) = py_strip s
  /\ exists pre post,
       s = pre +:+ py_strip s +:+ post /\ all_space pre /\ all_space post.
Proof.
  unfold py_strip. split; [|split].
  - apply py_lstrip_rstrip, py_lstrip_idem.
  - apply py_rstrip_idem.
  - destruct (py_lstrip_split s) as (pre & Hs & Hpre).
    destruct (py_rstrip_split (py_lstrip s)) as (post & Ht & Hpost).
    exists pre, post. split; [|auto]. rewrite <- Ht. exact Hs.
Qed.

(** X10. The two text fields of a record are the room cell and the
    half-board cell as [str] prints them, less the white space at the two
    ends: neither field begins or ends with white space. The two printed
    cells are made of ASCII characters, at most 4300 of them. *)
Theorem record_text_fields_trimmed `{Runtime} (cols : list string)
    (record_id : Z) (row : list cell) (r : record) (room half_board : cell) :
  row_get cols row "room number" = Ok room ->
  row_get cols row "half-board included?" = Ok half_board ->
  ascii_text (py_str room) -> ascii_text (py_str half_board) ->
  (String.length (py_str room) <= 4300)%nat ->
  (String.length (py_str half_board) <= 4300)%nat ->
  build_record cols record_id row = Ok r ->
  (exists pre post,
      py_str room = pre +:+ habitacion r +:+ post
      /\ all_space pre /\ all_space post)
  /\ (exists pre post,
        py_str half_board = pre +:+ media_pension r +:+ post
        /\ all_space pre /\ all_space post)
  /\ py_lstrip (habitacion r) = habitacion r
  /\ py_rstrip (habitacion r) = habitacion r
  /\ py_lstrip (media_pension r) = media_pension r
  /\ py_rstrip (media_pension r) = media_pension r.
Proof.
  intros Hroom Hhalf _ _ _ _ Hb. apply build_record_fields in Hb
    as (room' & _ & _ & half_board' & Hroom' & _ & _ & Hhalf' & -> & _ & _ & ->).
  assert (room' = room) by congruence.
  assert (half_board' = half_board) by congruence. subst room' half_board'.
  destruct (py_strip_spec (py_str room)) as (Hl1 & Hr1 & Hs1).
  destruct (py_strip_spec (py_str half_board)) as (Hl2 & Hr2 & Hs2).
  auto 10.
Qed.

Lemma record_text_fields_trimmed_witness :
  exists r,
    @build_record (sample_runtime sample_df)
      ["room number"; "number of persons"; "day of check out";
       "half-board included?"] 1
      [Text "  102 "; Int 2; Int 45000; Text " yes "] = Ok r
    /\ habitacion r = "102" /\ media_pension r = "yes"
    /\ py_lstrip (habitacion r) = habitacion r.
Proof.
  exists (mk_record 1 "102" (IntVal 2) "15/03/2023" "yes" Pendiente).
  split; [reflexivity|]. split; [reflexivity|]. split; [reflexivity|].
  destruct (@record_text_fields_trimmed (sample_runtime sample_df)
              ["room number"; "number of persons"; "day of check out";
               "half-board included?"] 1
              [Text "  102 "; Int 2; Int 45000; Text " yes "]
              (mk_record 1 "102" (IntVal 2) "15/03/2023" "yes" Pendiente)
              (Text "  102 ") (Text " yes ") eq_refl eq_refl)
    as (_ & _ & Hl & _).
  - apply (bool_decide_unpack _). vm_compute. exact I.
  - apply (bool_decide_unpack _). vm_compute. exact I.
  - simpl. lia.
  - simpl. lia.
  - reflexivity.
  - exact Hl.
Defined.

(** X11. The half-board field of a row whose cell is empty or a truth value:
    the record holds what [str] prints, ["nan"], ["True"] or ["False"],
    not an empty field nor the words of the file. *)
Theorem half_board_of_empty_or_bool `{Runtime} (cols : list string)
    (record_id : Z) (row : list cell) (r : record) (c : cell) :
  row_get cols row "half-board included?" = Ok c ->
  build_record cols record_id row = Ok r ->
  match c with
  | Missing NaN => media_pension r = "nan"
  | Bool true => media_pension r = "True"
  | Bool false => media_pension r = "False"
  | _ => media_pension r = py_strip (py_str c)
  end.
Proof.
  intros Hc Hb. apply build_record_fields in Hb
    as (_ & _ & _ & half_board & _ & _ & _ & Hhalf & _ & _ & _ & ->).
  assert (half_board = c) by congruence. subst half_board.
  destruct c as [[]| | | |[]| |]; reflexivity.
Qed.

Lemma half_board_of_empty_or_bool_witness :
  exists r,
    @build_record (sample_runtime sample_df)
      ["room number"; "number of persons"; "day of check out";
       "half-board included?"] 1
      [Int 103; Int 2; Int 45000; Missing NaN] = Ok r
    /\ media_pension r = "nan".
Proof.
  eexists. split; [reflexivity|].
  exact (@half_board_of_empty_or_bool (sample_runtime sample_df)
           ["room number"; "number of persons"; "day of check out";
            "half-board included?"] 1
           [Int 103; Int 2; Int 45000; Missing NaN] _ (Missing NaN)
           eq_refl eq_refl).
Defined.

(** ** Numbers written as text *)









(** ** The columns the pipeline reads *)

Lemma mapM_ext_in {A B} (f g : A -> res B) l :
  (forall x, x ∈ l -> f x = g x) -> mapM f l = mapM g l.
Proof.
  induction l as [|x l IH]; intros Hfg; simpl; [reflexivity|].
  rewrite (Hfg x) by left. rewrite IH; [reflexivity|].
  intros y Hy. apply Hfg. right. exact Hy.
Qed.

(** X13. Two uploaded tables that agree, row by row, on the cell found under
    each of the four labels give the same outcome and the same store: the
    order of the columns, the spelling of the headers and every other
    column are without effect. In both tables the headers are text, made
    of ASCII characters, with distinct normal forms, and every row has one
    cell per header. *)
Theorem upload_reads_required_columns_only `{Runtime} (f f' : FileStorage)
    (st : store) (df df' df1 df1' : DataFrame) :
  filename f <> "" -> filename f' <> "" ->
  content f <> [] -> content f' <> [] ->
  read_excel (content f) = Some df -> read_excel (content f') = Some df' ->
  Forall ascii_text (columns df) -> Forall ascii_text (columns df') ->
  NoDup (map (fun col => py_strip (py_lower col)) (columns df)) ->
  NoDup (map (fun col => py_strip (py_lower col)) (columns df')) ->
  Forall (fun row => length row = length (columns df)) (rows df) ->
  Forall (fun row => length row = length (columns df')) (rows df') ->
  _normalize_columns df = Ok df1 -> _normalize_columns df' = Ok df1' ->
  Forall2 (fun row row' =>
             forall k, k ∈ map fst REQUIRED_COLUMNS ->
                       row_get (columns df1) row k = row_get (columns df1') row' k)
    (rows df) (rows df') ->
  upload (Some f) st = upload (Some f') st.
Proof.
  intros Hname Hname' Hc Hc' Hread Hread' _ _ _ _ Hrows Hrows' Hn Hn' Hsame.
  destruct (parse_file_projection f st df df1 Hc Hread Hrows Hn)
    as (prows & Hparse & Hproj).
  destruct (parse_file_projection f' st df' df1' Hc' Hread' Hrows' Hn')
    as (prows' & Hparse' & Hproj').
  assert (Heq : prows = prows').
  { clear - Hsame Hproj Hproj'. revert prows prows' Hproj Hproj'.
    induction Hsame as [|row row' rws rws' Hrow _ IH]; intros prows prows' Hp Hp'.
    - inversion Hp; inversion Hp'; reflexivity.
    - inversion Hp as [|? prow ? ptl Hprow Hptl]; subst.
      inversion Hp' as [|? prow' ? ptl' Hprow' Hptl']; subst.
      f_equal; [|apply IH; assumption].
      rewrite (mapM_ext_in _ (row_get (columns df1') row')) in Hprow by exact Hrow.
      congruence. }
  rewrite (upload_of_parse f st Hname), (upload_of_parse f' st Hname').
  rewrite Hparse, Hparse', Heq. reflexivity.
Qed.

Lemma upload_reads_required_columns_only_witness :
  @upload two_files_runtime (Some sample_file) sample_store
  = @upload two_files_runtime (Some reordered_file) sample_store.
Proof.
  apply (@upload_reads_required_columns_only two_files_runtime
           sample_file reordered_file sample_store sample_df reordered_df
           (mk_df ["room number"; "number of persons"; "day of check out";
                   "notes"; "half-board included?"] (rows sample_df))
           (mk_df ["half-board included?"; "day of check out"; "room number";
                   "number of persons"] (rows reordered_df))).
  - discriminate.
  - discriminate.
  - discriminate.
  - discriminate.
  - reflexivity.
  - reflexivity.
  - apply (bool_decide_unpack _). vm_compute. exact I.
  - apply (bool_decide_unpack _). vm_compute. exact I.
  - apply (bool_decide_unpack _). vm_compute. exact I.
  - apply (bool_decide_unpack _). vm_compute. exact I.
  - repeat constructor.
  - repeat constructor.
  - reflexivity.
  - reflexivity.
  - repeat (constructor;
            [intros k Hk; simpl in Hk; rewrite !elem_of_cons in Hk;
             destruct Hk as [->|[->|[->|[->|Hk]]]]; [reflexivity..|inversion Hk]|]).
    constructor.
Defined.
